(** * OpenTurbofanArchitecting: architecture elements and their build phases

    A shallow embedding of
      - [open_turb_arch/architecture/architecture.py]
          (ArchElement, TurbofanArchitecture),
      - [open_turb_arch/evaluation/architecture/flow.py]
          (Inlet, Duct, Splitter, Mixer, BleedInter, BleedIntra, Nozzle),
      - [open_turb_arch/evaluation/architecture/turbomachinery.py]
          (BaseTurboMachinery, Compressor, Burner, Turbine, Shaft).

    Python objects live in a store indexed by address; a reference is an
    address, [None] is the absent reference.  The pyCycle / OpenMDAO
    containers the methods write into are external: they are modelled by
    the record of the calls they received, in call order.  A method is a
    computation in a state-and-exception monad whose state is the object
    it mutates (the store, a cycle, a multi-point cycle or a problem); a
    raised exception keeps the state reached so far, as in Python. *)

From Stdlib Require Import Floats DecimalString DecimalNat.
From stdpp Require Import base list strings option.

Set Warnings "-inexact-float".
Local Open Scope string_scope.
Local Open Scope list_scope.

(** ** Exceptions and the monad *)

(** The exceptions the modelled code can raise.  A message is the format
    string of the source; the [%r] rendering of an element inside it is
    not modelled. *)
Inductive exn : Type :=
  | ValueError (msg : string)
  | NotImplementedError
  | TypeError (msg : string)
  | AttributeError (msg : string)
  | RecursionError.

Inductive result (A : Type) : Type :=
  | Ok (a : A)
  | Raise (e : exn).
Arguments Ok {A} a.
Arguments Raise {A} e.

(** A computation over a mutable state [St]. *)
Definition M (St A : Type) : Type := St -> St * result A.

Definition ret {St A} (a : A) : M St A := fun s => (s, Ok a).

Definition raise {St A} (e : exn) : M St A := fun s => (s, Raise e).

Definition bind {St A B} (m : M St A) (k : A -> M St B) : M St B :=
  fun s =>
    match m s with
    | (s', Ok a) => k a s'
    | (s', Raise e) => (s', Raise e)
    end.

Definition lift {St A} (r : result A) : M St A := fun s => (s, r).

Definition get {St} : M St St := fun s => (s, Ok s).

Definition modify {St} (f : St -> St) : M St unit := fun s => (f s, Ok tt).

Declare Scope py_scope.
Delimit Scope py_scope with py.
Notation "x <- m ;; k" := (bind m (fun x => k))
  (at level 100, m at next level, right associativity) : py_scope.
Notation "m ;;; k" := (bind m (fun _ => k))
  (at level 100, right associativity) : py_scope.
Local Open Scope py_scope.

(** [for x in l: body x] *)
Fixpoint for_each {St A} (l : list A) (body : A -> M St unit) : M St unit :=
  match l with
  | [] => ret tt
  | x :: l' => body x ;;; for_each l' body
  end.

(** [for i, x in enumerate(l): body i x], counting from [i]. *)
Fixpoint for_enumerate {St A} (i : nat) (l : list A)
    (body : nat -> A -> M St unit) : M St unit :=
  match l with
  | [] => ret tt
  | x :: l' => body i x ;;; for_enumerate (S i) l' body
  end.

Definition state_of {St A} (r : St * result A) : St := fst r.
Definition outcome {St A} (r : St * result A) : result A := snd r.

(** ** Enumerations *)

Inductive CompressorMap : Type := AXI_5 | LPC | HPC.

Definition CompressorMap_value (m : CompressorMap) : string :=
  match m with
  | AXI_5 => "AXI5"
  | LPC => "LPCMap"
  | HPC => "HPCMap"
  end.

Inductive FuelType : Type := JET_A | JP_7.

Definition FuelType_value (f : FuelType) : string :=
  match f with
  | JET_A => "Jet-A(g)"
  | JP_7 => "JP-7"
  end.

Inductive TurbineMap : Type := LPT_2269 | LPT | HPT.

Definition TurbineMap_value (m : TurbineMap) : string :=
  match m with
  | LPT_2269 => "LPT2269"
  | LPT => "LPTMap"
  | HPT => "HPTMap"
  end.

Inductive NozzleType : Type := CV | CD | CV_CD.

Definition NozzleType_value (t : NozzleType) : string :=
  match t with
  | CV => "CV"
  | CD => "CD"
  | CV_CD => "CD_CV"
  end.

#[global] Instance CompressorMap_eq_dec : EqDecision CompressorMap.
Proof. solve_decision. Defined.
#[global] Instance FuelType_eq_dec : EqDecision FuelType.
Proof. solve_decision. Defined.
#[global] Instance TurbineMap_eq_dec : EqDecision TurbineMap.
Proof. solve_decision. Defined.
#[global] Instance NozzleType_eq_dec : EqDecision NozzleType.
Proof. solve_decision. Defined.

(** ** Objects *)

(** The address of an object in the store. *)
Definition addr : Type := nat.

(** [id(x)]: the address of the object, an integer that no other live
    object shares. *)
Definition py_id (x : addr) : Z := Z.of_nat x.

(** A field that holds an object or [None]. *)
Definition ref : Type := option addr.

(** A float object held by a field.  The code never asks for the
    identity of a float, but the comparison of two field tuples tests
    [x is y] before [x == y], and for NaN the two differ: one NaN object
    equals itself, two NaN objects are unequal.  For every other value
    the identity test changes nothing.  [Num x] is a float object of
    value [x], taken to be the object of no other field when [x] is
    NaN; [NaN i] is the NaN object of identity [i], which several
    fields may hold. *)
Inductive pyfloat : Type :=
  | Num (x : float)
  | NaN (i : nat).
Coercion Num : float >-> pyfloat.
Bind Scope float_scope with pyfloat.

(** One record per dataclass, with the dataclass fields in declaration
    order (inherited fields first).  [shaft] of the turbomachinery
    classes is the private attribute [__shaft] behind the [shaft]
    property: it is an attribute of the object but not a dataclass
    field. *)
Record ArchElement : Type := mkArchElement {
  elem_name : string
}.

Record BaseTurboMachinery : Type := mkBaseTurboMachinery {
  btm_name : string;
  btm_shaft : ref
}.

Record Inlet : Type := mkInlet {
  inlet_name : string;
  inlet_target : ref;
  inlet_mach : pyfloat;
  inlet_p_recovery : pyfloat
}.

Record Duct : Type := mkDuct {
  duct_name : string;
  duct_target : ref;
  duct_mach : pyfloat;
  duct_p_loss_frac : pyfloat;
  duct_fuel_in_air : bool;
  duct_statics : bool;
  duct_design : bool
}.

Record Splitter : Type := mkSplitter {
  splitter_name : string;
  splitter_target_core : ref;
  splitter_target_bypass : ref;
  splitter_bpr : pyfloat;
  splitter_core_mach : pyfloat;
  splitter_bypass_mach : pyfloat
}.

Record Mixer : Type := mkMixer {
  mixer_name : string;
  mixer_source_1 : ref;
  mixer_source_2 : ref;
  mixer_target : ref;
  mixer_mach : pyfloat
}.

Record BleedInter : Type := mkBleedInter {
  bleedinter_name : string;
  bleedinter_target : ref;
  bleedinter_target_bleed : option string;
  bleedinter_mach : pyfloat;
  bleedinter_source_frac_w : pyfloat;
  bleedinter_target_frac_p : pyfloat;
  bleedinter_fuel_in_air : bool;
  bleedinter_bleed_names : list string
}.

Record BleedIntra : Type := mkBleedIntra {
  bleedintra_name : string;
  bleedintra_source : ref;
  bleedintra_target : ref;
  bleedintra_mach : pyfloat;
  bleedintra_source_frac_w : pyfloat;
  bleedintra_source_frac_p : pyfloat;
  bleedintra_source_frac_work : pyfloat;
  bleedintra_target_frac_p : pyfloat;
  bleedintra_fuel_in_air : bool;
  bleedintra_bleed_names : list string
}.

Record Nozzle : Type := mkNozzle {
  nozzle_name : string;
  nozzle_target : ref;
  nozzle_type : NozzleType;
  nozzle_v_loss_coefficient : pyfloat;
  nozzle_fuel_in_air : bool;
  nozzle_flow_out : option string
}.

Record Compressor : Type := mkCompressor {
  compressor_name : string;
  compressor_shaft : ref;
  compressor_target : ref;
  compressor_map : CompressorMap;
  compressor_mach : pyfloat;
  compressor_pr : pyfloat;
  compressor_eff : pyfloat
}.

Record Burner : Type := mkBurner {
  burner_name : string;
  burner_target : ref;
  burner_fuel : FuelType;
  burner_mach : pyfloat;
  burner_p_loss_frac : pyfloat
}.

Record Turbine : Type := mkTurbine {
  turbine_name : string;
  turbine_shaft : ref;
  turbine_target : ref;
  turbine_map : TurbineMap;
  turbine_mach : pyfloat;
  turbine_eff : pyfloat
}.

(** [connections] defaults to [None]; otherwise it is a list of
    references to turbomachinery elements. *)
Record Shaft : Type := mkShaft {
  shaft_name : string;
  shaft_connections : option (list addr);
  shaft_rpm_design : pyfloat;
  shaft_power_loss : pyfloat
}.

Record TurbofanArchitecture : Type := mkTurbofanArchitecture {
  arch_elements : list addr
}.

(** An object with its class. *)
Inductive object : Type :=
  | OArchElement (o : ArchElement)
  | OBaseTurboMachinery (o : BaseTurboMachinery)
  | OInlet (o : Inlet)
  | ODuct (o : Duct)
  | OSplitter (o : Splitter)
  | OMixer (o : Mixer)
  | OBleedInter (o : BleedInter)
  | OBleedIntra (o : BleedIntra)
  | ONozzle (o : Nozzle)
  | OCompressor (o : Compressor)
  | OBurner (o : Burner)
  | OTurbine (o : Turbine)
  | OShaft (o : Shaft)
  | OTurbofanArchitecture (o : TurbofanArchitecture).

(** The store: the object at address [a] is [h !! a]. *)
Definition heap : Type := list object.

(** Object creation: the new object gets the next free address. *)
Definition alloc (o : object) : M heap addr :=
  fun h => (h ++ [o], Ok (length h)).

(** [x.name] *)
Definition object_name (o : object) : result string :=
  match o with
  | OArchElement o => Ok (elem_name o)
  | OBaseTurboMachinery o => Ok (btm_name o)
  | OInlet o => Ok (inlet_name o)
  | ODuct o => Ok (duct_name o)
  | OSplitter o => Ok (splitter_name o)
  | OMixer o => Ok (mixer_name o)
  | OBleedInter o => Ok (bleedinter_name o)
  | OBleedIntra o => Ok (bleedintra_name o)
  | ONozzle o => Ok (nozzle_name o)
  | OCompressor o => Ok (compressor_name o)
  | OBurner o => Ok (burner_name o)
  | OTurbine o => Ok (turbine_name o)
  | OShaft o => Ok (shaft_name o)
  | OTurbofanArchitecture _ =>
      Raise (AttributeError "'TurbofanArchitecture' object has no attribute 'name'")
  end.

(** [r.name] for a field [r]: fails on [None].  An address outside the
    store does not arise for references obtained from [alloc]. *)
Definition attr_name (h : heap) (r : ref) : result string :=
  match r with
  | None => Raise (AttributeError "'NoneType' object has no attribute 'name'")
  | Some a =>
      match h !! a with
      | Some o => object_name o
      | None => Raise (AttributeError "name")
      end
  end.

(** ** The external containers *)

(** The thermodynamic data handed to every pyCycle element: an opaque
    token that is passed through unchanged. *)
Definition thermo_data : Type := nat.

(** The species lists of [pycycle.api] that the source names. *)
Inductive pyc_species : Type :=
  | AIR_MIX
  | AIR_FUEL_MIX
  | AIR_ELEMENTS
  | AIR_FUEL_ELEMENTS.

(** A pyCycle element as constructed by the source: the class and the
    keyword arguments given.  [map_data] is [getattr(pyc, name)],
    recorded by the name looked up. *)
Inductive pyc_element : Type :=
  | pyc_Inlet (design : bool) (thermo : thermo_data) (elements : pyc_species)
  | pyc_Duct (thermo : thermo_data) (elements : pyc_species)
      (statics design : bool)
  | pyc_Splitter (design : bool) (thermo : thermo_data) (elements : pyc_species)
  | pyc_Mixer (design : bool) (thermo : thermo_data)
      (Fl_I1_elements Fl_I2_elements : pyc_species)
  | pyc_BleedOut (thermo : thermo_data) (elements : pyc_species)
      (design : bool) (bleed_names : list string)
  | pyc_Nozzle (nozzType lossCoef : string) (thermo : thermo_data)
      (elements : pyc_species)
  | pyc_Compressor (map_data : string) (design : bool) (thermo : thermo_data)
      (elements : pyc_species)
  | pyc_Combustor (design : bool) (thermo : thermo_data)
      (inflow_elements air_fuel_elements : pyc_species) (fuel_type : string)
  | pyc_Turbine (map_data : string) (design : bool) (thermo : thermo_data)
      (elements : pyc_species)
  | pyc_Shaft (num_ports : nat).

(** A module registered in a cycle: the name it was registered under,
    the element, the promoted inputs, and the input defaults set on the
    element so far. *)
Record module : Type := mkModule {
  mod_name : string;
  mod_element : pyc_element;
  mod_promotes_inputs : list (string * string);
  mod_input_defaults : list (string * pyfloat)
}.

(** A call [pyc_connect_flow(src, dst, connect_w=.., connect_stat=..)];
    a keyword that the call does not pass is [None]. *)
Record flow_edge : Type := mkFlowEdge {
  fl_src : string;
  fl_dst : string;
  fl_connect_w : option bool;
  fl_connect_stat : option bool
}.

(** [pyc.Cycle], as the calls it received. *)
Record Cycle : Type := mkCycle {
  cycle_modules : list module;
  cycle_flows : list flow_edge;
  cycle_connects : list (string * string);
  cycle_input_defaults : list (string * pyfloat * string)
}.

Definition empty_cycle : Cycle := mkCycle [] [] [] [].

(** The handle of a registered element: its position among the modules. *)
Definition handle : Type := nat.

Definition pyc_add_element (name : string) (el : pyc_element)
    (promotes_inputs : list (string * string)) : M Cycle handle :=
  fun c =>
    (mkCycle (cycle_modules c ++ [mkModule name el promotes_inputs []])
       (cycle_flows c) (cycle_connects c) (cycle_input_defaults c),
     Ok (length (cycle_modules c))).

(** [el.set_input_defaults(key, val)] on a registered element. *)
Definition el_set_input_defaults (el : handle) (key : string) (val : pyfloat)
    : M Cycle unit :=
  modify (fun c =>
    mkCycle
      (alter (fun m => mkModule (mod_name m) (mod_element m)
                         (mod_promotes_inputs m)
                         (mod_input_defaults m ++ [(key, val)]))
         el (cycle_modules c))
      (cycle_flows c) (cycle_connects c) (cycle_input_defaults c)).

Definition pyc_connect_flow (src dst : string)
    (connect_w connect_stat : option bool) : M Cycle unit :=
  modify (fun c =>
    mkCycle (cycle_modules c)
      (cycle_flows c ++ [mkFlowEdge src dst connect_w connect_stat])
      (cycle_connects c) (cycle_input_defaults c)).

(** [cycle.connect(src, dst)] *)
Definition cycle_connect (src dst : string) : M Cycle unit :=
  modify (fun c =>
    mkCycle (cycle_modules c) (cycle_flows c)
      (cycle_connects c ++ [(src, dst)]) (cycle_input_defaults c)).

(** [cycle.set_input_defaults(name, val, units=units)] *)
Definition cycle_set_input_defaults (name : string) (val : pyfloat)
    (units : string) : M Cycle unit :=
  modify (fun c =>
    mkCycle (cycle_modules c) (cycle_flows c) (cycle_connects c)
      (cycle_input_defaults c ++ [(name, val, units)])).

(** [pyc.MPCycle], as the calls it received. *)
Record MPCycle : Type := mkMPCycle {
  mp_cycle_params : list (string * pyfloat);
  mp_des_od : list (string * string)
}.

Definition empty_mp_cycle : MPCycle := mkMPCycle [] [].

Definition pyc_add_cycle_param (name : string) (val : pyfloat) : M MPCycle unit :=
  modify (fun mp =>
    mkMPCycle (mp_cycle_params mp ++ [(name, val)]) (mp_des_od mp)).

Definition pyc_connect_des_od (src dst : string) : M MPCycle unit :=
  modify (fun mp =>
    mkMPCycle (mp_cycle_params mp) (mp_des_od mp ++ [(src, dst)])).

(** [om.Problem], as the [set_val] calls it received. *)
Record Problem : Type := mkProblem {
  problem_vals : list (string * pyfloat)
}.

Definition set_val (path : string) (val : pyfloat) : M Problem unit :=
  modify (fun p => mkProblem (problem_vals p ++ [(path, val)])).

(** Modelled from the spec: the module
    [open_turb_arch.evaluation.architecture.units], whose constant [RPM]
    the shaft uses, is not among the sources; the spec fixes the
    rotational-speed unit tag as "RPM". *)
Definition units_RPM : string := "RPM".

(** ** String formatting *)

(** ['%s.%s' % (a, b)] *)
Definition dotted (a b : string) : string := a +:+ ("." +:+ b).

(** [%s] of a field that holds a string or [None]. *)
Definition str_of (o : option string) : string :=
  match o with
  | Some s => s
  | None => "None"
  end.

(** [%d] of a list position. *)
Definition str_of_nat (n : nat) : string :=
  NilEmpty.string_of_uint (Nat.to_uint n).

Definition Fl_O : string := "Fl_O".
Definition Fl_I : string := "Fl_I".

(** ** architecture.py: ArchElement *)

Module ArchElement.

(** [__hash__]: the identity of the object. *)
Definition __hash__ (self : addr) : Z := py_id self.

Definition add_element (thermo : thermo_data) (design : bool)
    : M Cycle (option handle) :=
  raise NotImplementedError.

Definition connect : M Cycle unit := raise NotImplementedError.

Definition add_cycle_params : M MPCycle unit := ret tt.

Definition connect_des_od : M MPCycle unit := raise NotImplementedError.

Definition set_problem_values (des_con_name : string)
    (eval_con_names : list string) : M Problem unit :=
  ret tt.

(** [self._connect_flow_target(cycle, target, out_flow, in_flow)]; the
    defaults of the last two are [Fl_O] and [Fl_I]. *)
Definition _connect_flow_target (h : heap) (self_name : string)
    (target : ref) (out_flow in_flow : string) : M Cycle unit :=
  match target with
  | Some _ =>
      target_name <- lift (attr_name h target) ;;
      pyc_connect_flow (dotted self_name out_flow)
        (dotted target_name in_flow) None None
  | None => ret tt
  end.

End ArchElement.

(** ** flow.py *)

Module Inlet.

Definition add_element (self : Inlet) (thermo : thermo_data) (design : bool)
    : M Cycle (option handle) :=
  el <- pyc_add_element (inlet_name self)
          (pyc_Inlet design thermo AIR_ELEMENTS) [] ;;
  (if design then el_set_input_defaults el "MN" (inlet_mach self)
   else ret tt) ;;;
  ret (Some el).

Definition connect (h : heap) (self : Inlet) : M Cycle unit :=
  pyc_connect_flow "fc.Fl_O" (inlet_name self +:+ ".Fl_I") (Some false) None ;;;
  ArchElement._connect_flow_target h (inlet_name self) (inlet_target self)
    Fl_O Fl_I.

Definition add_cycle_params (self : Inlet) : M MPCycle unit :=
  pyc_add_cycle_param (inlet_name self +:+ ".ram_recovery")
    (inlet_p_recovery self).

Definition connect_des_od (self : Inlet) : M MPCycle unit :=
  pyc_connect_des_od (inlet_name self +:+ ".Fl_O:stat:area")
    (inlet_name self +:+ ".area").

End Inlet.

Module Duct.

Definition add_element (self : Duct) (thermo : thermo_data) (design : bool)
    : M Cycle (option handle) :=
  let elements :=
    if duct_fuel_in_air self then AIR_FUEL_ELEMENTS else AIR_ELEMENTS in
  _ <- pyc_add_element (duct_name self)
         (pyc_Duct thermo elements (duct_statics self) design) [] ;;
  ret None.

Definition connect (h : heap) (self : Duct) : M Cycle unit :=
  ArchElement._connect_flow_target h (duct_name self) (duct_target self)
    Fl_O Fl_I.

Definition connect_des_od (self : Duct) : M MPCycle unit :=
  pyc_connect_des_od (duct_name self +:+ ".Fl_O:stat:area")
    (duct_name self +:+ ".area").

End Duct.

Module Splitter.

Definition add_element (self : Splitter) (thermo : thermo_data)
    (design : bool) : M Cycle (option handle) :=
  el <- pyc_add_element (splitter_name self)
          (pyc_Splitter design thermo AIR_ELEMENTS) [] ;;
  (if design then
     el_set_input_defaults el "BPR" (splitter_bpr self) ;;;
     el_set_input_defaults el "MN1" (splitter_core_mach self) ;;;
     el_set_input_defaults el "MN2" (splitter_bypass_mach self)
   else ret tt) ;;;
  ret (Some el).

Definition connect (h : heap) (self : Splitter) : M Cycle unit :=
  ArchElement._connect_flow_target h (splitter_name self)
    (splitter_target_core self) "Fl_O1" Fl_I ;;;
  ArchElement._connect_flow_target h (splitter_name self)
    (splitter_target_bypass self) "Fl_O2" Fl_I.

Definition connect_des_od (self : Splitter) : M MPCycle unit :=
  pyc_connect_des_od (splitter_name self +:+ ".Fl_O1:stat:area")
    (splitter_name self +:+ ".area1") ;;;
  pyc_connect_des_od (splitter_name self +:+ ".Fl_O2:stat:area")
    (splitter_name self +:+ ".area2").

End Splitter.

Module Mixer.

Definition add_element (self : Mixer) (thermo : thermo_data) (design : bool)
    : M Cycle (option handle) :=
  el <- pyc_add_element (mixer_name self)
          (pyc_Mixer design thermo AIR_FUEL_ELEMENTS AIR_ELEMENTS) [] ;;
  (if design then ret tt else ret tt) ;;;
  ret (Some el).

Definition connect (h : heap) (self : Mixer) : M Cycle unit :=
  ArchElement._connect_flow_target h (mixer_name self) (mixer_target self)
    Fl_O Fl_I.

Definition connect_des_od (self : Mixer) : M MPCycle unit :=
  pyc_connect_des_od (mixer_name self +:+ ".Fl_O:stat:area")
    (mixer_name self +:+ ".area1") ;;;
  pyc_connect_des_od (mixer_name self +:+ ".Fl_I1_calc:stat:area")
    (mixer_name self +:+ "Fl_I1_stat_calc.area").

End Mixer.

Module BleedInter.

Definition add_element (self : BleedInter) (thermo : thermo_data)
    (design : bool) : M Cycle (option handle) :=
  let elements :=
    if bleedinter_fuel_in_air self then AIR_FUEL_ELEMENTS
    else AIR_ELEMENTS in
  _ <- pyc_add_element (bleedinter_name self)
         (pyc_BleedOut thermo elements design (bleedinter_bleed_names self))
         [] ;;
  ret None.

Definition connect (h : heap) (self : BleedInter) : M Cycle unit :=
  match bleedinter_target self with
  | None =>
      pyc_connect_flow (bleedinter_name self +:+ ".Fl_O") "fc.Fl_I"
        (Some false) None
  | Some _ =>
      ArchElement._connect_flow_target h (bleedinter_name self)
        (bleedinter_target self) Fl_O Fl_I ;;;
      for_each (bleedinter_bleed_names self) (fun bleed_name =>
        pyc_connect_flow (dotted (bleedinter_name self) bleed_name)
          (dotted (str_of (bleedinter_target_bleed self)) bleed_name)
          None (Some false))
  end.

Definition add_cycle_params (self : BleedInter) : M MPCycle unit :=
  match bleedinter_target self with
  | None => ret tt
  | Some _ =>
      for_each (bleedinter_bleed_names self) (fun bleed_name =>
        pyc_add_cycle_param
          (dotted (bleedinter_name self) bleed_name +:+ ":frac_W")
          (bleedinter_source_frac_w self) ;;;
        pyc_add_cycle_param
          (dotted (str_of (bleedinter_target_bleed self)) bleed_name
             +:+ ":frac_P")
          (bleedinter_target_frac_p self))
  end.

Definition connect_des_od (self : BleedInter) : M MPCycle unit :=
  pyc_connect_des_od (bleedinter_name self +:+ ".Fl_O:stat:area")
    (bleedinter_name self +:+ ".area").

End BleedInter.

Module BleedIntra.

Definition add_element (self : BleedIntra) (thermo : thermo_data)
    (design : bool) : M Cycle (option handle) :=
  ret None.

Definition connect (h : heap) (self : BleedIntra) : M Cycle unit :=
  match bleedintra_target self with
  | None =>
      pyc_connect_flow (bleedintra_name self +:+ ".Fl_O") "fc.Fl_I"
        (Some false) None
  | Some _ =>
      for_each (bleedintra_bleed_names self) (fun bleed_name =>
        source_name <- lift (attr_name h (bleedintra_source self)) ;;
        target_name <- lift (attr_name h (bleedintra_target self)) ;;
        pyc_connect_flow (dotted source_name bleed_name)
          (dotted target_name bleed_name) None (Some false))
  end.

Definition add_cycle_params (h : heap) (self : BleedIntra)
    : M MPCycle unit :=
  match bleedintra_target self with
  | None => ret tt
  | Some _ =>
      for_each (bleedintra_bleed_names self) (fun bleed_name =>
        source_name <- lift (attr_name h (bleedintra_source self)) ;;
        pyc_add_cycle_param (dotted source_name bleed_name +:+ ":frac_W")
          (bleedintra_source_frac_w self) ;;;
        source_name <- lift (attr_name h (bleedintra_source self)) ;;
        pyc_add_cycle_param (dotted source_name bleed_name +:+ ":frac_P")
          (bleedintra_source_frac_p self) ;;;
        source_name <- lift (attr_name h (bleedintra_source self)) ;;
        pyc_add_cycle_param (dotted source_name bleed_name +:+ ":frac_work")
          (bleedintra_source_frac_work self) ;;;
        target_name <- lift (attr_name h (bleedintra_target self)) ;;
        pyc_add_cycle_param (dotted target_name bleed_name +:+ ":frac_P")
          (bleedintra_target_frac_p self))
  end.

Definition connect_des_od (self : BleedIntra) : M MPCycle unit := ret tt.

End BleedIntra.

Module Nozzle.

Definition add_element (self : Nozzle) (thermo : thermo_data) (design : bool)
    : M Cycle (option handle) :=
  let elements :=
    if nozzle_fuel_in_air self then AIR_FUEL_ELEMENTS else AIR_ELEMENTS in
  el <- pyc_add_element (nozzle_name self)
          (pyc_Nozzle (NozzleType_value (nozzle_type self)) "Cv" thermo
             elements) [] ;;
  ret (Some el).

Definition connect (h : heap) (self : Nozzle) : M Cycle unit :=
  match nozzle_target self with
  | None => cycle_connect "fc.Fl_O:stat:P" (nozzle_name self +:+ ".Ps_exhaust")
  | Some _ =>
      ArchElement._connect_flow_target h (nozzle_name self)
        (nozzle_target self) Fl_O (str_of (nozzle_flow_out self))
  end.

Definition add_cycle_params (self : Nozzle) : M MPCycle unit :=
  pyc_add_cycle_param (nozzle_name self +:+ ".Cv")
    (nozzle_v_loss_coefficient self).

Definition connect_des_od (self : Nozzle) : M MPCycle unit := ret tt.

End Nozzle.

(** Dataclass construction of the flow elements: [__init__] stores the
    fields of a fresh object. *)
Definition new_Inlet (name : string) (target : ref) (mach p_recovery : pyfloat)
    : M heap addr :=
  alloc (OInlet (mkInlet name target mach p_recovery)).

Definition new_Duct (name : string) (target : ref) (mach p_loss_frac : pyfloat)
    (fuel_in_air statics design : bool) : M heap addr :=
  alloc (ODuct (mkDuct name target mach p_loss_frac fuel_in_air statics design)).

Definition new_Nozzle (name : string) (target : ref) (type : NozzleType)
    (v_loss_coefficient : pyfloat) (fuel_in_air : bool)
    (flow_out : option string) : M heap addr :=
  alloc (ONozzle (mkNozzle name target type v_loss_coefficient fuel_in_air
                    flow_out)).

(** ** turbomachinery.py *)

Module BaseTurboMachinery.

(** The private attribute [__shaft] of an object, for the classes
    that derive from [BaseTurboMachinery]; the other classes have no
    such attribute. *)
Definition shaft_attr (o : object) : option ref :=
  match o with
  | OBaseTurboMachinery o => Some (btm_shaft o)
  | OCompressor o => Some (compressor_shaft o)
  | OTurbine o => Some (turbine_shaft o)
  | _ => None
  end.

(** The same object with [__shaft] replaced. *)
Definition with_shaft (shaft : ref) (o : object) : object :=
  match o with
  | OBaseTurboMachinery o =>
      OBaseTurboMachinery (mkBaseTurboMachinery (btm_name o) shaft)
  | OCompressor o =>
      OCompressor (mkCompressor (compressor_name o) shaft
                     (compressor_target o) (compressor_map o)
                     (compressor_mach o) (compressor_pr o)
                     (compressor_eff o))
  | OTurbine o =>
      OTurbine (mkTurbine (turbine_name o) shaft (turbine_target o)
                  (turbine_map o) (turbine_mach o) (turbine_eff o))
  | o => o
  end.

(** The [shaft] property of the object at [self]. *)
Definition shaft (self : addr) : M heap ref :=
  fun h =>
    match h !! self ≫= shaft_attr with
    | Some r => (h, Ok r)
    | None => (h, Raise (AttributeError "shaft"))
    end.

(** The setter of the [shaft] property: [self.shaft = shaft].  On an
    object of another class the assignment would create an attribute
    that the model does not track; [Shaft.__post_init__] reads the
    property first and so never gets there. *)
Definition set_shaft (self : addr) (shaft : ref) : M heap unit :=
  modify (alter (with_shaft shaft) self).

(** [__post_init__]: [self.__shaft = None]. *)
Definition __post_init__ (self : addr) : M heap unit := set_shaft self None.

Definition add_element (thermo : thermo_data) (design : bool)
    : M Cycle (option handle) :=
  raise NotImplementedError.

Definition connect : M Cycle unit := raise NotImplementedError.

Definition connect_des_od : M MPCycle unit := raise NotImplementedError.

End BaseTurboMachinery.

Definition UnboundTurbomachinery : exn := ValueError "Not connected to shaft: %r".
Definition DuplicateShaftBinding : exn := ValueError "Shaft already set: %r".
Definition InvalidShaftTopology : exn :=
  ValueError "Shaft should at least connect two turbomachinery elements!".

Module Compressor.

(** The generated [__init__]: the fields, then [__post_init__]. *)
Definition new (name : string) (target : ref) (map : CompressorMap)
    (mach pr eff : pyfloat) : M heap addr :=
  self <- alloc (OCompressor (mkCompressor name None target map mach pr eff)) ;;
  BaseTurboMachinery.__post_init__ self ;;;
  ret self.

Definition add_element (h : heap) (self : Compressor) (thermo : thermo_data)
    (design : bool) : M Cycle (option handle) :=
  match compressor_shaft self with
  | None => raise UnboundTurbomachinery
  | Some _ =>
      let map_data := CompressorMap_value (compressor_map self) in
      let el := pyc_Compressor map_data design thermo AIR_MIX in
      shaft_name <- lift (attr_name h (compressor_shaft self)) ;;
      el <- pyc_add_element (compressor_name self) el
              [("Nmech", shaft_name +:+ "_Nmech")] ;;
      (if design then el_set_input_defaults el "MN" (compressor_mach self)
       else ret tt) ;;;
      ret (Some el)
  end.

Definition connect (h : heap) (self : Compressor) : M Cycle unit :=
  ArchElement._connect_flow_target h (compressor_name self)
    (compressor_target self) Fl_O Fl_I.

Definition connect_des_od (self : Compressor) : M MPCycle unit :=
  for_each ["s_PR"; "s_Wc"; "s_eff"; "s_Nc"] (fun param =>
    pyc_connect_des_od (dotted (compressor_name self) param)
      (dotted (compressor_name self) param)) ;;;
  pyc_connect_des_od (compressor_name self +:+ ".Fl_O:stat:area")
    (compressor_name self +:+ ".area").

Definition set_problem_values (self : Compressor) (des_con_name : string)
    (eval_con_names : list string) : M Problem unit :=
  set_val (des_con_name +:+ "." +:+ compressor_name self +:+ ".PR")
    (compressor_pr self) ;;;
  set_val (des_con_name +:+ "." +:+ compressor_name self +:+ ".eff")
    (compressor_eff self).

End Compressor.

Module Burner.

Definition add_element (self : Burner) (thermo : thermo_data) (design : bool)
    : M Cycle (option handle) :=
  el <- pyc_add_element (burner_name self)
          (pyc_Combustor design thermo AIR_MIX AIR_FUEL_MIX
             (FuelType_value (burner_fuel self))) [] ;;
  (if design then el_set_input_defaults el "MN" (burner_mach self)
   else ret tt) ;;;
  ret (Some el).

Definition connect (h : heap) (self : Burner) : M Cycle unit :=
  ArchElement._connect_flow_target h (burner_name self) (burner_target self)
    Fl_O Fl_I.

Definition add_cycle_params (self : Burner) : M MPCycle unit :=
  pyc_add_cycle_param (burner_name self +:+ ".dPqP") (burner_p_loss_frac self).

Definition connect_des_od (self : Burner) : M MPCycle unit :=
  pyc_connect_des_od (burner_name self +:+ ".Fl_O:stat:area")
    (burner_name self +:+ ".area").

End Burner.

Module Turbine.

Definition new (name : string) (target : ref) (map : TurbineMap)
    (mach eff : pyfloat) : M heap addr :=
  self <- alloc (OTurbine (mkTurbine name None target map mach eff)) ;;
  BaseTurboMachinery.__post_init__ self ;;;
  ret self.

Definition add_element (h : heap) (self : Turbine) (thermo : thermo_data)
    (design : bool) : M Cycle (option handle) :=
  match turbine_shaft self with
  | None => raise UnboundTurbomachinery
  | Some _ =>
      let map_data := TurbineMap_value (turbine_map self) in
      let el := pyc_Turbine map_data design thermo AIR_FUEL_MIX in
      shaft_name <- lift (attr_name h (turbine_shaft self)) ;;
      el <- pyc_add_element (turbine_name self) el
              [("Nmech", shaft_name +:+ "_Nmech")] ;;
      (if design then el_set_input_defaults el "MN" (turbine_mach self)
       else ret tt) ;;;
      ret (Some el)
  end.

Definition connect (h : heap) (self : Turbine) : M Cycle unit :=
  ArchElement._connect_flow_target h (turbine_name self)
    (turbine_target self) Fl_O Fl_I.

Definition connect_des_od (self : Turbine) : M MPCycle unit :=
  for_each ["s_PR"; "s_Wp"; "s_eff"; "s_Np"] (fun param =>
    pyc_connect_des_od (dotted (turbine_name self) param)
      (dotted (turbine_name self) param)) ;;;
  pyc_connect_des_od (turbine_name self +:+ ".Fl_O:stat:area")
    (turbine_name self +:+ ".area").

Definition set_problem_values (self : Turbine) (des_con_name : string)
    (eval_con_names : list string) : M Problem unit :=
  set_val (des_con_name +:+ "." +:+ turbine_name self +:+ ".eff")
    (turbine_eff self).

End Turbine.

Module Shaft.

(** The body of the loop of [__post_init__], for one connection. *)
Definition bind_connection (self conn : addr) : M heap unit :=
  bound <- BaseTurboMachinery.shaft conn ;;
  match bound with
  | Some _ => raise DuplicateShaftBinding
  | None => BaseTurboMachinery.set_shaft conn (Some self)
  end.

(** [__post_init__]: bind every connection to this shaft, refusing a
    connection that already has one.  Iterating [None] is a
    [TypeError]. *)
Definition __post_init__ (self : addr) : M heap unit :=
  h <- get ;;
  match h !! self with
  | Some (OShaft o) =>
      match shaft_connections o with
      | None => raise (TypeError "'NoneType' object is not iterable")
      | Some connections => for_each connections (bind_connection self)
      end
  | _ => raise (AttributeError "connections")
  end.

(** The generated [__init__]: the fields, then [__post_init__]. *)
Definition new (name : string) (connections : option (list addr))
    (rpm_design power_loss : pyfloat) : M heap addr :=
  self <- alloc (OShaft (mkShaft name connections rpm_design power_loss)) ;;
  __post_init__ self ;;;
  ret self.

Definition add_element (self : Shaft) (thermo : thermo_data) (design : bool)
    : M Cycle (option handle) :=
  match shaft_connections self with
  | None => raise InvalidShaftTopology
  | Some connections =>
      if decide (length connections < 2) then raise InvalidShaftTopology
      else
        el <- pyc_add_element (shaft_name self)
                (pyc_Shaft (length connections))
                [("Nmech", shaft_name self +:+ "_Nmech")] ;;
        (if design then
           cycle_set_input_defaults (shaft_name self +:+ "_Nmech")
             (shaft_rpm_design self) units_RPM
         else ret tt) ;;;
        ret (Some el)
  end.

Definition connect (h : heap) (self : Shaft) : M Cycle unit :=
  match shaft_connections self with
  | None => raise (TypeError "'NoneType' object is not iterable")
  | Some connections =>
      for_enumerate 0 connections (fun i element =>
        element_name <- lift (attr_name h (Some element)) ;;
        cycle_connect (element_name +:+ ".trq")
          (shaft_name self +:+ ".trq_" +:+ str_of_nat i))
  end.

Definition add_cycle_params (self : Shaft) : M MPCycle unit :=
  pyc_add_cycle_param (shaft_name self +:+ ".fracLoss")
    (shaft_power_loss self).

Definition connect_des_od (self : Shaft) : M MPCycle unit := ret tt.

End Shaft.

(** ** Method dispatch on the class of the object *)

Definition add_element (h : heap) (self : addr) (thermo : thermo_data)
    (design : bool) : M Cycle (option handle) :=
  match h !! self with
  | Some (OArchElement _) => ArchElement.add_element thermo design
  | Some (OBaseTurboMachinery _) => BaseTurboMachinery.add_element thermo design
  | Some (OInlet o) => Inlet.add_element o thermo design
  | Some (ODuct o) => Duct.add_element o thermo design
  | Some (OSplitter o) => Splitter.add_element o thermo design
  | Some (OMixer o) => Mixer.add_element o thermo design
  | Some (OBleedInter o) => BleedInter.add_element o thermo design
  | Some (OBleedIntra o) => BleedIntra.add_element o thermo design
  | Some (ONozzle o) => Nozzle.add_element o thermo design
  | Some (OCompressor o) => Compressor.add_element h o thermo design
  | Some (OBurner o) => Burner.add_element o thermo design
  | Some (OTurbine o) => Turbine.add_element h o thermo design
  | Some (OShaft o) => Shaft.add_element o thermo design
  | Some (OTurbofanArchitecture _) | None =>
      raise (AttributeError "add_element")
  end.

Definition connect (h : heap) (self : addr) : M Cycle unit :=
  match h !! self with
  | Some (OArchElement _) => ArchElement.connect
  | Some (OBaseTurboMachinery _) => BaseTurboMachinery.connect
  | Some (OInlet o) => Inlet.connect h o
  | Some (ODuct o) => Duct.connect h o
  | Some (OSplitter o) => Splitter.connect h o
  | Some (OMixer o) => Mixer.connect h o
  | Some (OBleedInter o) => BleedInter.connect h o
  | Some (OBleedIntra o) => BleedIntra.connect h o
  | Some (ONozzle o) => Nozzle.connect h o
  | Some (OCompressor o) => Compressor.connect h o
  | Some (OBurner o) => Burner.connect h o
  | Some (OTurbine o) => Turbine.connect h o
  | Some (OShaft o) => Shaft.connect h o
  | Some (OTurbofanArchitecture _) | None => raise (AttributeError "connect")
  end.

(** The classes that do not override [add_cycle_params] inherit the
    empty one of [ArchElement]. *)
Definition add_cycle_params (h : heap) (self : addr) : M MPCycle unit :=
  match h !! self with
  | Some (OInlet o) => Inlet.add_cycle_params o
  | Some (OBleedInter o) => BleedInter.add_cycle_params o
  | Some (OBleedIntra o) => BleedIntra.add_cycle_params h o
  | Some (ONozzle o) => Nozzle.add_cycle_params o
  | Some (OBurner o) => Burner.add_cycle_params o
  | Some (OShaft o) => Shaft.add_cycle_params o
  | Some (OArchElement _) | Some (OBaseTurboMachinery _) | Some (ODuct _)
  | Some (OSplitter _) | Some (OMixer _) | Some (OCompressor _)
  | Some (OTurbine _) => ArchElement.add_cycle_params
  | Some (OTurbofanArchitecture _) | None =>
      raise (AttributeError "add_cycle_params")
  end.

Definition connect_des_od (h : heap) (self : addr) : M MPCycle unit :=
  match h !! self with
  | Some (OArchElement _) => ArchElement.connect_des_od
  | Some (OBaseTurboMachinery _) => BaseTurboMachinery.connect_des_od
  | Some (OInlet o) => Inlet.connect_des_od o
  | Some (ODuct o) => Duct.connect_des_od o
  | Some (OSplitter o) => Splitter.connect_des_od o
  | Some (OMixer o) => Mixer.connect_des_od o
  | Some (OBleedInter o) => BleedInter.connect_des_od o
  | Some (OBleedIntra o) => BleedIntra.connect_des_od o
  | Some (ONozzle o) => Nozzle.connect_des_od o
  | Some (OCompressor o) => Compressor.connect_des_od o
  | Some (OBurner o) => Burner.connect_des_od o
  | Some (OTurbine o) => Turbine.connect_des_od o
  | Some (OShaft o) => Shaft.connect_des_od o
  | Some (OTurbofanArchitecture _) | None =>
      raise (AttributeError "connect_des_od")
  end.

Definition set_problem_values (h : heap) (self : addr) (des_con_name : string)
    (eval_con_names : list string) : M Problem unit :=
  match h !! self with
  | Some (OCompressor o) =>
      Compressor.set_problem_values o des_con_name eval_con_names
  | Some (OTurbine o) =>
      Turbine.set_problem_values o des_con_name eval_con_names
  | Some (OTurbofanArchitecture _) | None =>
      raise (AttributeError "set_problem_values")
  | Some _ => ArchElement.set_problem_values des_con_name eval_con_names
  end.

(** ** Hashing and equality *)

(** Every class of the sources is declared [@dataclass(frozen=False)]
    with the decorator's default [eq=True]:
      - a class that defines no [__eq__] in its body receives the
        generated one, which answers [NotImplemented] for an operand of
        another class and otherwise compares the tuples of the dataclass
        fields; all the element classes are of this kind;
      - a class that defines neither [__eq__] nor [__hash__] in its own
        body has its [__hash__] set to [None] by the decorator, also when
        a base class defines one; [ArchElement] and
        [TurbofanArchitecture] define [__hash__] in their bodies and
        keep it;
      - [TurbofanArchitecture] defines [__eq__] in its body and keeps
        it.
    The generated [__eq__] is the one of the Python versions the
    repository was written for, which compares the two field tuples. *)

Module TurbofanArchitecture.

Definition new (elements : list addr) : M heap addr :=
  alloc (OTurbofanArchitecture (mkTurbofanArchitecture elements)).

Definition __hash__ (self : addr) : Z := py_id self.

(** The builtin [hash(x)] for an object of the store: it calls the
    [__hash__] of the class of [x], and fails for a class whose
    [__hash__] is [None].  It stands here, between the [__hash__] it
    dispatches to and the [__eq__] that calls it. *)
Definition hash (h : heap) (x : addr) : result Z :=
  match h !! x with
  | Some (OArchElement _) => Ok (ArchElement.__hash__ x)
  | Some (OTurbofanArchitecture _) => Ok (__hash__ x)
  | Some _ => Raise (TypeError "unhashable type")
  | None => Raise (AttributeError "__hash__")
  end.

(** [__eq__]: [hash(self) == hash(other)]. *)
Definition __eq__ (h : heap) (self other : addr) : result bool :=
  match hash h self with
  | Ok hs =>
      match hash h other with
      | Ok ho => Ok (hs =? ho)%Z
      | Raise e => Raise e
      end
  | Raise e => Raise e
  end.

End TurbofanArchitecture.

(** Comparison of the next pair of items once the earlier pairs were
    found equal; a comparison that raised ends the comparison. *)
Definition and_then (r k : result bool) : result bool :=
  match r with
  | Ok true => k
  | _ => r
  end.
Infix "&&&" := and_then (at level 40, left associativity) : py_scope.

Definition str_eq (x y : string) : result bool := Ok (bool_decide (x = y)).

(** [x is y or x == y] on two pyfloat objects, as the comparison of two
    tuples applies it to a pair of items: two ordinary pyfloat objects
    are compared by value; a shared NaN object equals itself and
    nothing else. *)
Definition float_eq (x y : pyfloat) : result bool :=
  match x, y with
  | Num x, Num y => Ok (PrimFloat.eqb x y)
  | NaN i, NaN j => Ok (bool_decide (i = j))
  | _, _ => Ok false
  end.

Definition bool_eq (x y : bool) : result bool := Ok (bool_decide (x = y)).

(** Members of an enumeration are singletons. *)
Definition enum_eq {A} `{EqDecision A} (x y : A) : result bool :=
  Ok (bool_decide (x = y)).

Definition opt_str_eq (x y : option string) : result bool :=
  Ok (bool_decide (x = y)).

Definition str_list_eq (x y : list string) : result bool :=
  Ok (bool_decide (x = y)).

(** Equal-length lists, item by item up to the first difference. *)
Fixpoint items_eq {A} (item_eq : A -> A -> result bool) (l1 l2 : list A)
    : result bool :=
  match l1, l2 with
  | x :: l1', y :: l2' => item_eq x y &&& items_eq item_eq l1' l2'
  | _, _ => Ok true
  end.

(** [==] on two lists: lists of different lengths are unequal without
    any item being compared. *)
Definition list_eq {A} (item_eq : A -> A -> result bool) (l1 l2 : list A)
    : result bool :=
  if decide (length l1 = length l2) then items_eq item_eq l1 l2
  else Ok false.

(** [a == b] for two objects of the store.  [fuel] bounds the nesting of
    comparisons; running out of it is Python's [RecursionError].

    For two elements of one class the generated [__eq__] compares the
    field tuples.  For two elements of different classes both generated
    methods answer [NotImplemented] and the comparison falls back to
    identity.  When one operand is a [TurbofanArchitecture] its
    [__eq__] decides, directly or as the reflected method.

    An item of a tuple or list is compared by identity first and by [==]
    only when the identity test fails. *)
Fixpoint py_eq (fuel : nat) (h : heap) (a b : addr) : result bool :=
  match fuel with
  | 0 => Raise RecursionError
  | S fuel' =>
      let obj_eq (x y : addr) : result bool :=
        if decide (x = y) then Ok true else py_eq fuel' h x y in
      (* [None] against an object: the generated [__eq__] answers
         [NotImplemented] and the identity test fails.  Against a
         [TurbofanArchitecture], which no field is declared to hold, the
         hashes are compared; the hash of [None] is taken to differ
         from every address. *)
      let ref_eq (x y : ref) : result bool :=
        match x, y with
        | None, None => Ok true
        | Some x, Some y => obj_eq x y
        | _, _ => Ok false
        end in
      let conns_eq (x y : option (list addr)) : result bool :=
        match x, y with
        | None, None => Ok true
        | Some l1, Some l2 => list_eq obj_eq l1 l2
        | _, _ => Ok false
        end in
      match h !! a, h !! b with
      | Some oa, Some ob =>
          match oa, ob with
          | OTurbofanArchitecture _, _ => TurbofanArchitecture.__eq__ h a b
          | _, OTurbofanArchitecture _ => TurbofanArchitecture.__eq__ h b a
          | OArchElement x, OArchElement y =>
              str_eq (elem_name x) (elem_name y)
          | OBaseTurboMachinery x, OBaseTurboMachinery y =>
              str_eq (btm_name x) (btm_name y)
          | OInlet x, OInlet y =>
              str_eq (inlet_name x) (inlet_name y)
              &&& ref_eq (inlet_target x) (inlet_target y)
              &&& float_eq (inlet_mach x) (inlet_mach y)
              &&& float_eq (inlet_p_recovery x) (inlet_p_recovery y)
          | ODuct x, ODuct y =>
              str_eq (duct_name x) (duct_name y)
              &&& ref_eq (duct_target x) (duct_target y)
              &&& float_eq (duct_mach x) (duct_mach y)
              &&& float_eq (duct_p_loss_frac x) (duct_p_loss_frac y)
              &&& bool_eq (duct_fuel_in_air x) (duct_fuel_in_air y)
              &&& bool_eq (duct_statics x) (duct_statics y)
              &&& bool_eq (duct_design x) (duct_design y)
          | OSplitter x, OSplitter y =>
              str_eq (splitter_name x) (splitter_name y)
              &&& ref_eq (splitter_target_core x) (splitter_target_core y)
              &&& ref_eq (splitter_target_bypass x) (splitter_target_bypass y)
              &&& float_eq (splitter_bpr x) (splitter_bpr y)
              &&& float_eq (splitter_core_mach x) (splitter_core_mach y)
              &&& float_eq (splitter_bypass_mach x) (splitter_bypass_mach y)
          | OMixer x, OMixer y =>
              str_eq (mixer_name x) (mixer_name y)
              &&& ref_eq (mixer_source_1 x) (mixer_source_1 y)
              &&& ref_eq (mixer_source_2 x) (mixer_source_2 y)
              &&& ref_eq (mixer_target x) (mixer_target y)
              &&& float_eq (mixer_mach x) (mixer_mach y)
          | OBleedInter x, OBleedInter y =>
              str_eq (bleedinter_name x) (bleedinter_name y)
              &&& ref_eq (bleedinter_target x) (bleedinter_target y)
              &&& opt_str_eq (bleedinter_target_bleed x)
                    (bleedinter_target_bleed y)
              &&& float_eq (bleedinter_mach x) (bleedinter_mach y)
              &&& float_eq (bleedinter_source_frac_w x)
                    (bleedinter_source_frac_w y)
              &&& float_eq (bleedinter_target_frac_p x)
                    (bleedinter_target_frac_p y)
              &&& bool_eq (bleedinter_fuel_in_air x) (bleedinter_fuel_in_air y)
              &&& str_list_eq (bleedinter_bleed_names x)
                    (bleedinter_bleed_names y)
          | OBleedIntra x, OBleedIntra y =>
              str_eq (bleedintra_name x) (bleedintra_name y)
              &&& ref_eq (bleedintra_source x) (bleedintra_source y)
              &&& ref_eq (bleedintra_target x) (bleedintra_target y)
              &&& float_eq (bleedintra_mach x) (bleedintra_mach y)
              &&& float_eq (bleedintra_source_frac_w x)
                    (bleedintra_source_frac_w y)
              &&& float_eq (bleedintra_source_frac_p x)
                    (bleedintra_source_frac_p y)
              &&& float_eq (bleedintra_source_frac_work x)
                    (bleedintra_source_frac_work y)
              &&& float_eq (bleedintra_target_frac_p x)
                    (bleedintra_target_frac_p y)
              &&& bool_eq (bleedintra_fuel_in_air x) (bleedintra_fuel_in_air y)
              &&& str_list_eq (bleedintra_bleed_names x)
                    (bleedintra_bleed_names y)
          | ONozzle x, ONozzle y =>
              str_eq (nozzle_name x) (nozzle_name y)
              &&& ref_eq (nozzle_target x) (nozzle_target y)
              &&& enum_eq (nozzle_type x) (nozzle_type y)
              &&& float_eq (nozzle_v_loss_coefficient x)
                    (nozzle_v_loss_coefficient y)
              &&& bool_eq (nozzle_fuel_in_air x) (nozzle_fuel_in_air y)
              &&& opt_str_eq (nozzle_flow_out x) (nozzle_flow_out y)
          | OCompressor x, OCompressor y =>
              str_eq (compressor_name x) (compressor_name y)
              &&& ref_eq (compressor_target x) (compressor_target y)
              &&& enum_eq (compressor_map x) (compressor_map y)
              &&& float_eq (compressor_mach x) (compressor_mach y)
              &&& float_eq (compressor_pr x) (compressor_pr y)
              &&& float_eq (compressor_eff x) (compressor_eff y)
          | OBurner x, OBurner y =>
              str_eq (burner_name x) (burner_name y)
              &&& ref_eq (burner_target x) (burner_target y)
              &&& enum_eq (burner_fuel x) (burner_fuel y)
              &&& float_eq (burner_mach x) (burner_mach y)
              &&& float_eq (burner_p_loss_frac x) (burner_p_loss_frac y)
          | OTurbine x, OTurbine y =>
              str_eq (turbine_name x) (turbine_name y)
              &&& ref_eq (turbine_target x) (turbine_target y)
              &&& enum_eq (turbine_map x) (turbine_map y)
              &&& float_eq (turbine_mach x) (turbine_mach y)
              &&& float_eq (turbine_eff x) (turbine_eff y)
          | OShaft x, OShaft y =>
              str_eq (shaft_name x) (shaft_name y)
              &&& conns_eq (shaft_connections x) (shaft_connections y)
              &&& float_eq (shaft_rpm_design x) (shaft_rpm_design y)
              &&& float_eq (shaft_power_loss x) (shaft_power_loss y)
          | _, _ => Ok (bool_decide (a = b))
          end
      | _, _ => Raise (AttributeError "__eq__")
      end
  end.

(** ** Notions used in the statements *)

(** The module a compressor registers. *)
Definition compressor_module (o : Compressor) (shaft_name : string)
    (thermo : thermo_data) (design : bool) : module :=
  mkModule (compressor_name o)
    (pyc_Compressor (CompressorMap_value (compressor_map o)) design thermo
       AIR_MIX)
    [("Nmech", shaft_name +:+ "_Nmech")]
    (if design then [("MN", compressor_mach o)] else []).

Definition turbine_module (o : Turbine) (shaft_name : string)
    (thermo : thermo_data) (design : bool) : module :=
  mkModule (turbine_name o)
    (pyc_Turbine (TurbineMap_value (turbine_map o)) design thermo AIR_FUEL_MIX)
    [("Nmech", shaft_name +:+ "_Nmech")]
    (if design then [("MN", turbine_mach o)] else []).

(** The links [connect_des_od] of a compressor named [n] declares. *)
Definition compressor_links (n : string) : list (string * string) :=
  [(dotted n "s_PR", dotted n "s_PR");
   (dotted n "s_Wc", dotted n "s_Wc");
   (dotted n "s_eff", dotted n "s_eff");
   (dotted n "s_Nc", dotted n "s_Nc");
   (n +:+ ".Fl_O:stat:area", n +:+ ".area")].

(** The four parameters [add_cycle_params] declares for one bleed name. *)
Definition bleedintra_params (o : BleedIntra) (source_name target_name : string)
    (bleed_name : string) : list (string * pyfloat) :=
  [(dotted source_name bleed_name +:+ ":frac_W", bleedintra_source_frac_w o);
   (dotted source_name bleed_name +:+ ":frac_P", bleedintra_source_frac_p o);
   (dotted source_name bleed_name +:+ ":frac_work",
    bleedintra_source_frac_work o);
   (dotted target_name bleed_name +:+ ":frac_P", bleedintra_target_frac_p o)].

Definition bleedintra_edge (source_name target_name : string)
    (bleed_name : string) : flow_edge :=
  mkFlowEdge (dotted source_name bleed_name) (dotted target_name bleed_name)
    None (Some false).

(** The shaft an address is bound to: [None] when the object has no
    [shaft] attribute, [Some None] when it is unbound. *)
Definition shaft_at (h : heap) (a : addr) : option ref :=
  h !! a ≫= BaseTurboMachinery.shaft_attr.

(** The objects of the element classes: all but the architecture. *)
Definition is_element (o : object) : bool :=
  match o with
  | OTurbofanArchitecture _ => false
  | _ => true
  end.

(** The values of the float fields of an object. *)
Definition float_fields (o : object) : list pyfloat :=
  match o with
  | OArchElement _ | OBaseTurboMachinery _ | OTurbofanArchitecture _ => []
  | OInlet o => [inlet_mach o; inlet_p_recovery o]
  | ODuct o => [duct_mach o; duct_p_loss_frac o]
  | OSplitter o =>
      [splitter_bpr o; splitter_core_mach o; splitter_bypass_mach o]
  | OMixer o => [mixer_mach o]
  | OBleedInter o =>
      [bleedinter_mach o; bleedinter_source_frac_w o;
       bleedinter_target_frac_p o]
  | OBleedIntra o =>
      [bleedintra_mach o; bleedintra_source_frac_w o;
       bleedintra_source_frac_p o; bleedintra_source_frac_work o;
       bleedintra_target_frac_p o]
  | ONozzle o => [nozzle_v_loss_coefficient o]
  | OCompressor o => [compressor_mach o; compressor_pr o; compressor_eff o]
  | OBurner o => [burner_mach o; burner_p_loss_frac o]
  | OTurbine o => [turbine_mach o; turbine_eff o]
  | OShaft o => [shaft_rpm_design o; shaft_power_loss o]
  end.

(** A pyfloat object that compares equal to itself: any but a NaN of
    unknown identity. *)
Definition not_nan (x : pyfloat) : Prop := float_eq x x = Ok true.

(** The torque connections [Shaft.connect] declares for a shaft named
    [shaft_name] whose connections have the names [names], in order. *)
Definition torque_connects (shaft_name : string) (names : list string)
    : list (string * string) :=
  imap (fun i n => (n +:+ ".trq", shaft_name +:+ ".trq_" +:+ str_of_nat i))
    names.

(** The two classes that leave the build phases unimplemented. *)
Definition is_abstract (o : object) : bool :=
  match o with
  | OArchElement _ | OBaseTurboMachinery _ => true
  | _ => false
  end.

(** [type(x).__name__] *)
Definition class_name (o : object) : string :=
  match o with
  | OArchElement _ => "ArchElement"
  | OBaseTurboMachinery _ => "BaseTurboMachinery"
  | OInlet _ => "Inlet"
  | ODuct _ => "Duct"
  | OSplitter _ => "Splitter"
  | OMixer _ => "Mixer"
  | OBleedInter _ => "BleedInter"
  | OBleedIntra _ => "BleedIntra"
  | ONozzle _ => "Nozzle"
  | OCompressor _ => "Compressor"
  | OBurner _ => "Burner"
  | OTurbine _ => "Turbine"
  | OShaft _ => "Shaft"
  | OTurbofanArchitecture _ => "TurbofanArchitecture"
  end.

Definition is_bleed_intra (o : object) : bool :=
  match o with
  | OBleedIntra _ => true
  | _ => false
  end.

(** What the wiring phase may do to a cycle: append flow edges and
    connections, nothing else. *)
Definition wiring_extends (c c' : Cycle) : Prop :=
  cycle_modules c' = cycle_modules c
  /\ cycle_input_defaults c' = cycle_input_defaults c
  /\ cycle_flows c `prefix_of` cycle_flows c'
  /\ cycle_connects c `prefix_of` cycle_connects c'.

(** What parameter declaration may do to a multi-point cycle. *)
Definition params_extend (mp mp' : MPCycle) : Prop :=
  mp_des_od mp' = mp_des_od mp
  /\ mp_cycle_params mp `prefix_of` mp_cycle_params mp'.

(** The links [connect_des_od] of a turbine named [n] declares. *)
Definition turbine_links (n : string) : list (string * string) :=
  [(dotted n "s_PR", dotted n "s_PR");
   (dotted n "s_Wp", dotted n "s_Wp");
   (dotted n "s_eff", dotted n "s_eff");
   (dotted n "s_Np", dotted n "s_Np");
   (n +:+ ".Fl_O:stat:area", n +:+ ".area")].

(** The flow edge of one bleed of a BleedInter, and its two parameters. *)
Definition bleedinter_edge (o : BleedInter) (bleed_name : string) : flow_edge :=
  mkFlowEdge (dotted (bleedinter_name o) bleed_name)
    (dotted (str_of (bleedinter_target_bleed o)) bleed_name)
    None (Some false).

Definition bleedinter_params (o : BleedInter) (bleed_name : string)
    : list (string * pyfloat) :=
  [(dotted (bleedinter_name o) bleed_name +:+ ":frac_W",
    bleedinter_source_frac_w o);
   (dotted (str_of (bleedinter_target_bleed o)) bleed_name +:+ ":frac_P",
    bleedinter_target_frac_p o)].

(** Two objects that differ at most in the shaft they are bound to. *)
Definition same_but_shaft (o o' : object) : Prop :=
  BaseTurboMachinery.with_shaft None o = BaseTurboMachinery.with_shaft None o'.

(** Two stores that hold, address by address, the same objects up to
    their shaft bindings. *)
Definition heaps_agree (h h' : heap) : Prop :=
  forall a : addr,
    match h !! a, h' !! a with
    | Some o, Some o' => same_but_shaft o o'
    | None, None => True
    | _, _ => False
    end.

(** Both paths of a link lie under the name [n]. *)
Definition link_under (n : string) (l : string * string) : Prop :=
  String.prefix n (fst l) = true /\ String.prefix n (snd l) = true.

(** The fields of an element that hold neither a float nor an object:
    the same object with its floats, its references, its shaft and its
    connections blanked. *)
Definition plain_fields (o : object) : object :=
  match o with
  | OInlet o => OInlet (mkInlet (inlet_name o) None 0 0)
  | ODuct o =>
      ODuct (mkDuct (duct_name o) None 0 0 (duct_fuel_in_air o) (duct_statics o)
               (duct_design o))
  | OSplitter o => OSplitter (mkSplitter (splitter_name o) None None 0 0 0)
  | OMixer o => OMixer (mkMixer (mixer_name o) None None None 0)
  | OBleedInter o =>
      OBleedInter (mkBleedInter (bleedinter_name o) None
                     (bleedinter_target_bleed o) 0 0 0
                     (bleedinter_fuel_in_air o) (bleedinter_bleed_names o))
  | OBleedIntra o =>
      OBleedIntra (mkBleedIntra (bleedintra_name o) None None 0 0 0 0 0
                     (bleedintra_fuel_in_air o) (bleedintra_bleed_names o))
  | ONozzle o =>
      ONozzle (mkNozzle (nozzle_name o) None (nozzle_type o) 0
                 (nozzle_fuel_in_air o) (nozzle_flow_out o))
  | OCompressor o =>
      OCompressor (mkCompressor (compressor_name o) None None
                     (compressor_map o) 0 0 0)
  | OBurner o => OBurner (mkBurner (burner_name o) None (burner_fuel o) 0 0)
  | OTurbine o =>
      OTurbine (mkTurbine (turbine_name o) None None (turbine_map o) 0 0)
  | OShaft o => OShaft (mkShaft (shaft_name o) None 0 0)
  | OBaseTurboMachinery o =>
      OBaseTurboMachinery (mkBaseTurboMachinery (btm_name o) None)
  | OArchElement _ | OTurbofanArchitecture _ => o
  end.

(** The dataclass fields of an element that hold an object or [None],
    in declaration order. *)
Definition ref_fields (o : object) : list ref :=
  match o with
  | OInlet o => [inlet_target o]
  | ODuct o => [duct_target o]
  | OSplitter o => [splitter_target_core o; splitter_target_bypass o]
  | OMixer o => [mixer_source_1 o; mixer_source_2 o; mixer_target o]
  | OBleedInter o => [bleedinter_target o]
  | OBleedIntra o => [bleedintra_source o; bleedintra_target o]
  | ONozzle o => [nozzle_target o]
  | OCompressor o => [compressor_target o]
  | OBurner o => [burner_target o]
  | OTurbine o => [turbine_target o]
  | _ => []
  end.

(** The connections of a shaft. *)
Definition connections_of (o : object) : option (list addr) :=
  match o with
  | OShaft o => shaft_connections o
  | _ => None
  end.

(** Two objects held by corresponding fields match when they are one
    object or compare equal. *)
Definition obj_match (fuel : nat) (h : heap) (x y : addr) : Prop :=
  x = y \/ py_eq fuel h x y = Ok true.

Definition ref_match (fuel : nat) (h : heap) (r1 r2 : ref) : Prop :=
  match r1, r2 with
  | None, None => True
  | Some x, Some y => obj_match fuel h x y
  | _, _ => False
  end.

Definition conns_match (fuel : nat) (h : heap) (c1 c2 : option (list addr))
    : Prop :=
  match c1, c2 with
  | None, None => True
  | Some l1, Some l2 => Forall2 (obj_match fuel h) l1 l2
  | _, _ => False
  end.

(** Equality by value: the same class, the same plain fields, float
    fields that are equal pairwise, and object fields that match
    pairwise.  The shaft a turbomachinery element is bound to is not
    looked at. *)
Definition fields_match (fuel : nat) (h : heap) (oa ob : object) : Prop :=
  plain_fields oa = plain_fields ob
  /\ Forall2 (fun x y => float_eq x y = Ok true)
       (float_fields oa) (float_fields ob)
  /\ Forall2 (ref_match fuel h) (ref_fields oa) (ref_fields ob)
  /\ conns_match fuel h (connections_of oa) (connections_of ob).

(** The values [set_problem_values] writes for an object, with their
    paths, in the order written. *)
Definition exported_values (o : object) (des_con_name : string)
    : list (string * pyfloat) :=
  match o with
  | OCompressor o =>
      [(des_con_name +:+ "." +:+ compressor_name o +:+ ".PR", compressor_pr o);
       (des_con_name +:+ "." +:+ compressor_name o +:+ ".eff",
        compressor_eff o)]
  | OTurbine o =>
      [(des_con_name +:+ "." +:+ turbine_name o +:+ ".eff", turbine_eff o)]
  | _ => []
  end.

(** * Properties *)

(** ** The monad *)

Lemma bind_ret_l {St A B} (a : A) (k : A -> M St B) (s : St) :
  bind (ret a) k s = k a s.
Proof. reflexivity. Qed.

Lemma bind_raise {St A B} (e : exn) (k : A -> M St B) (s : St) :
  bind (raise e) k s = (s, Raise e).
Proof. reflexivity. Qed.

Lemma bind_ok {St A B} (m : M St A) (k : A -> M St B) (s s' : St) (a : A) :
  m s = (s', Ok a) -> bind m k s = k a s'.
Proof. intros Hm. unfold bind. now rewrite Hm. Qed.

Lemma bind_fail {St A B} (m : M St A) (k : A -> M St B) (s s' : St) (e : exn) :
  m s = (s', Raise e) -> bind m k s = (s', Raise e).
Proof. intros Hm. unfold bind. now rewrite Hm. Qed.

(** Sequencing a unit computation with [ret tt] changes nothing. *)
Lemma bind_ret_r {St} (m : M St unit) (s : St) :
  bind m (fun _ => ret tt) s = m s.
Proof.
  unfold bind. destruct (m s) as [s' [[] | e]]; reflexivity.
Qed.

(** A loop whose body always succeeds runs to its end, and its effect is
    the left fold of the body's effect. *)
Lemma for_each_ok {St A} (body : A -> M St unit) (step : St -> A -> St) :
  (forall x s, body x s = (step s x, Ok tt)) ->
  forall l s, for_each l body s = (foldl step s l, Ok tt).
Proof.
  intros Hbody l. induction l as [| x l IH]; intros s; simpl.
  - reflexivity.
  - erewrite bind_ok by apply Hbody. apply IH.
Qed.

(** A loop over parameters: each round appends [g x] to the parameters. *)
Lemma foldl_params (g : string -> list (string * pyfloat)) (l : list string)
    (mp : MPCycle) :
  foldl (fun mp x => mkMPCycle (mp_cycle_params mp ++ g x) (mp_des_od mp)) mp l
  = mkMPCycle (mp_cycle_params mp ++ flat_map g l) (mp_des_od mp).
Proof.
  revert mp. induction l as [| x l IH]; intros mp; simpl.
  - rewrite app_nil_r. now destruct mp.
  - rewrite IH. simpl. now rewrite <- app_assoc.
Qed.

Lemma foldl_flows (g : string -> flow_edge) (l : list string) (c : Cycle) :
  foldl (fun c x => mkCycle (cycle_modules c) (cycle_flows c ++ [g x])
                      (cycle_connects c) (cycle_input_defaults c)) c l
  = mkCycle (cycle_modules c) (cycle_flows c ++ map g l)
      (cycle_connects c) (cycle_input_defaults c).
Proof.
  revert c. induction l as [| x l IH]; intros c; simpl.
  - rewrite app_nil_r. now destruct c.
  - rewrite IH. simpl. now rewrite <- app_assoc.
Qed.

Lemma length_flat_map_const {A B} (g : A -> list B) (n : nat) (l : list A) :
  (forall x, length (g x) = n) -> length (flat_map g l) = n * length l.
Proof.
  intros Hg. induction l as [| x l IH]; simpl.
  - lia.
  - rewrite length_app, Hg, IH. lia.
Qed.

(** ** The flow-target helper *)

Lemma connect_flow_target_None (h : heap) (name out_flow in_flow : string)
    (c : Cycle) :
  ArchElement._connect_flow_target h name None out_flow in_flow c = (c, Ok tt).
Proof. reflexivity. Qed.

Lemma connect_flow_target_Some (h : heap) (name out_flow in_flow : string)
    (t : addr) (target_name : string) (c : Cycle) :
  attr_name h (Some t) = Ok target_name ->
  ArchElement._connect_flow_target h name (Some t) out_flow in_flow c
  = (mkCycle (cycle_modules c)
       (cycle_flows c
          ++ [mkFlowEdge (dotted name out_flow) (dotted target_name in_flow)
                None None])
       (cycle_connects c) (cycle_input_defaults c), Ok tt).
Proof.
  intros Ht. unfold ArchElement._connect_flow_target, lift, bind. now rewrite Ht.
Qed.

(** C10: an element that wires through [_connect_flow_target] and whose
    target is [None] declares no flow edge for that connection and
    raises nothing.  The helper itself leaves the cycle as it was; so do
    [connect] of Duct, Mixer, Compressor, Burner and Turbine; Inlet
    declares only its free-stream edge; Splitter declares only the edge
    of the branch that has a target. *)
Theorem connect_without_target_is_silent (h : heap) (c : Cycle) :
  (forall name out_flow in_flow,
     ArchElement._connect_flow_target h name None out_flow in_flow c
     = (c, Ok tt))
  /\ (forall o, duct_target o = None -> Duct.connect h o c = (c, Ok tt))
  /\ (forall o, mixer_target o = None -> Mixer.connect h o c = (c, Ok tt))
  /\ (forall o, compressor_target o = None ->
        Compressor.connect h o c = (c, Ok tt))
  /\ (forall o, burner_target o = None -> Burner.connect h o c = (c, Ok tt))
  /\ (forall o, turbine_target o = None -> Turbine.connect h o c = (c, Ok tt))
  /\ (forall o, inlet_target o = None ->
        Inlet.connect h o c
        = (mkCycle (cycle_modules c)
             (cycle_flows c
                ++ [mkFlowEdge "fc.Fl_O" (inlet_name o +:+ ".Fl_I")
                      (Some false) None])
             (cycle_connects c) (cycle_input_defaults c), Ok tt))
  /\ (forall o, splitter_target_core o = None ->
        Splitter.connect h o c
        = ArchElement._connect_flow_target h (splitter_name o)
            (splitter_target_bypass o) "Fl_O2" Fl_I c)
  /\ (forall o, splitter_target_bypass o = None ->
        Splitter.connect h o c
        = ArchElement._connect_flow_target h (splitter_name o)
            (splitter_target_core o) "Fl_O1" Fl_I c).
Proof.
  repeat split.
  - intros o Ht. unfold Duct.connect. now rewrite Ht.
  - intros o Ht. unfold Mixer.connect. now rewrite Ht.
  - intros o Ht. unfold Compressor.connect. now rewrite Ht.
  - intros o Ht. unfold Burner.connect. now rewrite Ht.
  - intros o Ht. unfold Turbine.connect. now rewrite Ht.
  - intros o Ht. unfold Inlet.connect. now rewrite Ht.
  - intros o Ht. unfold Splitter.connect. now rewrite Ht.
  - intros o Ht. unfold Splitter.connect. rewrite Ht.
    apply (bind_ret_r (ArchElement._connect_flow_target h (splitter_name o)
                         (splitter_target_core o) "Fl_O1" Fl_I)).
Qed.

Lemma connect_without_target_is_silent_witness :
  let d := mkDuct "duct" None 0.3 0 false true true in
  duct_target d = None /\ Duct.connect [] d empty_cycle = (empty_cycle, Ok tt).
Proof.
  split; [reflexivity |].
  apply (proj1 (proj2 (connect_without_target_is_silent [] empty_cycle))).
  reflexivity.
Defined.

(** ** Realizing turbomachinery *)

(** Setting a default on the module that was registered last. *)
Lemma alter_last_module (f : module -> module) (ms : list module) (m : module) :
  alter f (length ms) (ms ++ [m]) = ms ++ [f m].
Proof.
  induction ms as [| m' ms IH]; simpl.
  - reflexivity.
  - f_equal. apply IH.
Qed.

Lemma compressor_add_element_bound (h : heap) (o : Compressor) (s : addr)
    (shaft_name : string) (thermo : thermo_data) (design : bool) (c : Cycle) :
  compressor_shaft o = Some s ->
  attr_name h (Some s) = Ok shaft_name ->
  Compressor.add_element h o thermo design c
  = (mkCycle (cycle_modules c ++ [compressor_module o shaft_name thermo design])
       (cycle_flows c) (cycle_connects c) (cycle_input_defaults c),
     Ok (Some (length (cycle_modules c)))).
Proof.
  intros Hs Hn. unfold Compressor.add_element. rewrite Hs.
  unfold lift, bind at 1. rewrite Hn.
  unfold compressor_module. destruct design; cbn.
  - now rewrite alter_last_module.
  - reflexivity.
Qed.

Lemma turbine_add_element_bound (h : heap) (o : Turbine) (s : addr)
    (shaft_name : string) (thermo : thermo_data) (design : bool) (c : Cycle) :
  turbine_shaft o = Some s ->
  attr_name h (Some s) = Ok shaft_name ->
  Turbine.add_element h o thermo design c
  = (mkCycle (cycle_modules c ++ [turbine_module o shaft_name thermo design])
       (cycle_flows c) (cycle_connects c) (cycle_input_defaults c),
     Ok (Some (length (cycle_modules c)))).
Proof.
  intros Hs Hn. unfold Turbine.add_element. rewrite Hs.
  unfold lift, bind at 1. rewrite Hn.
  unfold turbine_module. destruct design; cbn.
  - now rewrite alter_last_module.
  - reflexivity.
Qed.

(** The only exception [attr_name] raises is [AttributeError]. *)
Lemma attr_name_raises (h : heap) (r : ref) (e : exn) :
  attr_name h r = Raise e -> exists msg, e = AttributeError msg.
Proof.
  destruct r as [a |]; simpl.
  - destruct (h !! a) as [[] |]; simpl; intros H; inversion H; eauto.
  - intros H; inversion H; eauto.
Qed.

(** C3: realizing a Compressor or a Turbine whose shaft is [None] raises
    the unbound-turbomachinery [ValueError] and leaves the cycle as it
    was, so no module has been registered.  With a shaft bound, the
    outcome is never that error; and when the bound shaft is an object
    with a name, exactly the element's module is registered. *)
Theorem realize_turbomachinery_needs_shaft (h : heap) (thermo : thermo_data)
    (design : bool) (c : Cycle) :
  (forall o : Compressor, compressor_shaft o = None ->
     Compressor.add_element h o thermo design c
     = (c, Raise UnboundTurbomachinery))
  /\ (forall o : Turbine, turbine_shaft o = None ->
        Turbine.add_element h o thermo design c
        = (c, Raise UnboundTurbomachinery))
  /\ (forall (o : Compressor) s, compressor_shaft o = Some s ->
        outcome (Compressor.add_element h o thermo design c)
        <> Raise UnboundTurbomachinery)
  /\ (forall (o : Turbine) s, turbine_shaft o = Some s ->
        outcome (Turbine.add_element h o thermo design c)
        <> Raise UnboundTurbomachinery)
  /\ (forall (o : Compressor) s shaft_name,
        compressor_shaft o = Some s ->
        attr_name h (Some s) = Ok shaft_name ->
        Compressor.add_element h o thermo design c
        = (mkCycle
             (cycle_modules c ++ [compressor_module o shaft_name thermo design])
             (cycle_flows c) (cycle_connects c) (cycle_input_defaults c),
           Ok (Some (length (cycle_modules c)))))
  /\ (forall (o : Turbine) s shaft_name,
        turbine_shaft o = Some s ->
        attr_name h (Some s) = Ok shaft_name ->
        Turbine.add_element h o thermo design c
        = (mkCycle
             (cycle_modules c ++ [turbine_module o shaft_name thermo design])
             (cycle_flows c) (cycle_connects c) (cycle_input_defaults c),
           Ok (Some (length (cycle_modules c))))).
Proof.
  split; [| split; [| split; [| split; [| split]]]].
  - intros o Hs. unfold Compressor.add_element. now rewrite Hs.
  - intros o Hs. unfold Turbine.add_element. now rewrite Hs.
  - intros o s Hs.
    destruct (attr_name h (Some s)) as [n | e] eqn:Hn.
    + now rewrite (compressor_add_element_bound h o s n thermo design c Hs Hn).
    + unfold Compressor.add_element. rewrite Hs.
      unfold lift, bind. rewrite Hn. simpl.
      destruct (attr_name_raises _ _ _ Hn) as [msg ->]. discriminate.
  - intros o s Hs.
    destruct (attr_name h (Some s)) as [n | e] eqn:Hn.
    + now rewrite (turbine_add_element_bound h o s n thermo design c Hs Hn).
    + unfold Turbine.add_element. rewrite Hs.
      unfold lift, bind. rewrite Hn. simpl.
      destruct (attr_name_raises _ _ _ Hn) as [msg ->]. discriminate.
  - intros o s n. apply compressor_add_element_bound.
  - intros o s n. apply turbine_add_element_bound.
Qed.

Lemma realize_turbomachinery_needs_shaft_witness :
  let hpc := mkCompressor "hpc" None None HPC 0.01 5 1 in
  compressor_shaft hpc = None
  /\ Compressor.add_element [] hpc 0 true empty_cycle
     = (empty_cycle, Raise UnboundTurbomachinery).
Proof.
  split; [reflexivity |].
  apply (proj1 (realize_turbomachinery_needs_shaft [] 0 true empty_cycle)).
  reflexivity.
Defined.

(** ** Realizing a shaft *)

(** C5: realizing a Shaft with fewer than two connections (or with
    [connections] left [None]) raises the shaft-topology [ValueError]
    and registers nothing; with two or more it succeeds and registers,
    under the shaft's name, a [pyc.Shaft] whose number of ports is the
    number of connections. *)
Theorem shaft_realize_needs_two_connections (o : Shaft) (thermo : thermo_data)
    (design : bool) (c : Cycle) :
  (shaft_connections o = None ->
     Shaft.add_element o thermo design c = (c, Raise InvalidShaftTopology))
  /\ (forall connections, shaft_connections o = Some connections ->
        length connections < 2 ->
        Shaft.add_element o thermo design c = (c, Raise InvalidShaftTopology))
  /\ (forall connections, shaft_connections o = Some connections ->
        2 <= length connections ->
        outcome (Shaft.add_element o thermo design c)
        = Ok (Some (length (cycle_modules c)))
        /\ cycle_modules (state_of (Shaft.add_element o thermo design c))
           = cycle_modules c
             ++ [mkModule (shaft_name o) (pyc_Shaft (length connections))
                   [("Nmech", shaft_name o +:+ "_Nmech")] []]).
Proof.
  split; [| split].
  - intros Hc. unfold Shaft.add_element. now rewrite Hc.
  - intros conns Hc Hlen. unfold Shaft.add_element. rewrite Hc.
    now rewrite decide_True by lia.
  - intros conns Hc Hlen. unfold Shaft.add_element. rewrite Hc.
    rewrite decide_False by lia.
    destruct design; split; reflexivity.
Qed.

Lemma shaft_realize_needs_two_connections_witness :
  let one := mkShaft "sh" (Some [7]) 10000 0 in
  Shaft.add_element one 0 true empty_cycle
  = (empty_cycle, Raise InvalidShaftTopology).
Proof.
  apply (proj1 (proj2 (shaft_realize_needs_two_connections
                         (mkShaft "sh" (Some [7]) 10000 0) 0 true empty_cycle))
           [7]).
  - reflexivity.
  - simpl. lia.
Defined.

(** ** Linking design and off-design *)

(** C6, as the code has it: a Compressor's [connect_des_od] declares
    exactly five links, in this order: the four scale factors [s_PR],
    [s_Wc], [s_eff], [s_Nc], each with the same path on the design and
    on the off-design side, and the exit area, whose design side is
    [<name>.Fl_O:stat:area] and whose off-design side is
    [<name>.area]. *)
Theorem compressor_connect_des_od_links (o : Compressor) (mp : MPCycle) :
  Compressor.connect_des_od o mp
  = (mkMPCycle (mp_cycle_params mp)
       (mp_des_od mp ++ compressor_links (compressor_name o)), Ok tt)
  /\ length (compressor_links (compressor_name o)) = 5
  /\ Forall (fun l => fst l = snd l)
       (take 4 (compressor_links (compressor_name o)))
  /\ compressor_links (compressor_name o) !! 4
     = Some (compressor_name o +:+ ".Fl_O:stat:area",
             compressor_name o +:+ ".area").
Proof.
  split; [| split; [| split]].
  - unfold Compressor.connect_des_od, compressor_links. cbn.
    unfold pyc_connect_des_od, modify. cbn. now rewrite <- !app_assoc.
  - reflexivity.
  - simpl. repeat constructor.
  - reflexivity.
Qed.

(** C6, counterexample: for the compressor named "hpc" one of the
    declared links has different paths on its two sides. *)
Lemma compressor_area_link_sides_differ :
  let hpc := mkCompressor "hpc" (Some 0) None HPC 0.01 5 1 in
  exists l,
    l ∈ mp_des_od (state_of (Compressor.connect_des_od hpc empty_mp_cycle))
    /\ fst l <> snd l.
Proof.
  exists ("hpc.Fl_O:stat:area", "hpc.area"). split.
  - cbn. do 4 apply list_elem_of_further. apply list_elem_of_here.
  - discriminate.
Qed.

(** C7, as the code has it: a BleedInter's [connect_des_od] declares the
    exit-area link in every case, whether or not it has a target: the
    links grow by exactly that one. *)
Theorem bleedinter_connect_des_od_unconditional (o : BleedInter) (mp : MPCycle) :
  BleedInter.connect_des_od o mp
  = (mkMPCycle (mp_cycle_params mp)
       (mp_des_od mp
          ++ [(bleedinter_name o +:+ ".Fl_O:stat:area",
               bleedinter_name o +:+ ".area")]), Ok tt)
  /\ length (mp_des_od (state_of (BleedInter.connect_des_od o mp)))
     = S (length (mp_des_od mp)).
Proof.
  split.
  - reflexivity.
  - unfold BleedInter.connect_des_od, pyc_connect_des_od, modify, state_of.
    cbn. rewrite length_app. simpl. lia.
Qed.

(** C7, counterexample: a BleedInter without a target still declares
    the area link. *)
Lemma bleedinter_without_target_links_area :
  let bld := mkBleedInter "bld" None None 0.3 0.05 1 false [] in
  bleedinter_target bld = None
  /\ mp_des_od (state_of (BleedInter.connect_des_od bld empty_mp_cycle))
     = [("bld.Fl_O:stat:area", "bld.area")].
Proof. split; reflexivity. Qed.

(** ** BleedIntra *)

Lemma bleedintra_add_cycle_params_target (h : heap) (o : BleedIntra)
    (t : addr) (source_name target_name : string) (mp : MPCycle) :
  bleedintra_target o = Some t ->
  attr_name h (bleedintra_source o) = Ok source_name ->
  attr_name h (Some t) = Ok target_name ->
  BleedIntra.add_cycle_params h o mp
  = (mkMPCycle
       (mp_cycle_params mp
          ++ flat_map (bleedintra_params o source_name target_name)
               (bleedintra_bleed_names o))
       (mp_des_od mp), Ok tt).
Proof.
  intros Ht Hs Hn. unfold BleedIntra.add_cycle_params. rewrite Ht, Hs, Hn.
  erewrite for_each_ok
    with (step := fun mp x =>
            mkMPCycle
              (mp_cycle_params mp
                 ++ bleedintra_params o source_name target_name x)
              (mp_des_od mp)).
  - now rewrite foldl_params.
  - intros x s. unfold bleedintra_params. cbn.
    unfold pyc_add_cycle_param, modify. cbn. now rewrite <- !app_assoc.
Qed.

Lemma bleedintra_connect_target (h : heap) (o : BleedIntra)
    (t : addr) (source_name target_name : string) (c : Cycle) :
  bleedintra_target o = Some t ->
  attr_name h (bleedintra_source o) = Ok source_name ->
  attr_name h (Some t) = Ok target_name ->
  BleedIntra.connect h o c
  = (mkCycle (cycle_modules c)
       (cycle_flows c
          ++ map (bleedintra_edge source_name target_name)
               (bleedintra_bleed_names o))
       (cycle_connects c) (cycle_input_defaults c), Ok tt).
Proof.
  intros Ht Hs Hn. unfold BleedIntra.connect. rewrite Ht, Hs, Hn.
  erewrite for_each_ok
    with (step := fun c x =>
            mkCycle (cycle_modules c)
              (cycle_flows c ++ [bleedintra_edge source_name target_name x])
              (cycle_connects c) (cycle_input_defaults c)).
  - now rewrite foldl_flows.
  - reflexivity.
Qed.

(** C8, as the code has it: a BleedIntra's [add_element] registers no
    module whatever its fields and arguments, and its [connect_des_od]
    declares no link.  [add_cycle_params] declares nothing when the
    target is [None]; with a target (and a source) it declares four
    parameters for every bleed name, [4 * len(bleed_names)] in all.
    Parameter declaration is not its only behaviour: [connect] declares
    one flow edge to [fc.Fl_I] when the target is [None] and otherwise
    one flow edge per bleed name from the source to the target. *)
Theorem bleedintra_phases (h : heap) (o : BleedIntra) :
  (forall thermo design c,
     BleedIntra.add_element o thermo design c = (c, Ok None))
  /\ (forall mp, BleedIntra.connect_des_od o mp = (mp, Ok tt))
  /\ (forall mp, bleedintra_target o = None ->
        BleedIntra.add_cycle_params h o mp = (mp, Ok tt))
  /\ (forall mp t source_name target_name,
        bleedintra_target o = Some t ->
        attr_name h (bleedintra_source o) = Ok source_name ->
        attr_name h (Some t) = Ok target_name ->
        BleedIntra.add_cycle_params h o mp
        = (mkMPCycle
             (mp_cycle_params mp
                ++ flat_map (bleedintra_params o source_name target_name)
                     (bleedintra_bleed_names o))
             (mp_des_od mp), Ok tt)
        /\ length (flat_map (bleedintra_params o source_name target_name)
                     (bleedintra_bleed_names o))
           = 4 * length (bleedintra_bleed_names o))
  /\ (forall c, bleedintra_target o = None ->
        BleedIntra.connect h o c
        = (mkCycle (cycle_modules c)
             (cycle_flows c
                ++ [mkFlowEdge (bleedintra_name o +:+ ".Fl_O") "fc.Fl_I"
                      (Some false) None])
             (cycle_connects c) (cycle_input_defaults c), Ok tt))
  /\ (forall c t source_name target_name,
        bleedintra_target o = Some t ->
        attr_name h (bleedintra_source o) = Ok source_name ->
        attr_name h (Some t) = Ok target_name ->
        BleedIntra.connect h o c
        = (mkCycle (cycle_modules c)
             (cycle_flows c
                ++ map (bleedintra_edge source_name target_name)
                     (bleedintra_bleed_names o))
             (cycle_connects c) (cycle_input_defaults c), Ok tt)).
Proof.
  split; [| split; [| split; [| split; [| split]]]].
  - reflexivity.
  - reflexivity.
  - intros mp Ht. unfold BleedIntra.add_cycle_params. now rewrite Ht.
  - intros mp t sn tn Ht Hs Hn. split.
    + now apply (bleedintra_add_cycle_params_target h o t).
    + now apply length_flat_map_const.
  - intros c Ht. unfold BleedIntra.connect. now rewrite Ht.
  - intros c t sn tn. apply bleedintra_connect_target.
Qed.

Lemma bleedintra_phases_witness :
  let h := [ODuct (mkDuct "hpc" None 0.3 0 false true true);
            ODuct (mkDuct "hpt" None 0.3 0 true true true)] in
  let o := mkBleedIntra "cool" (Some 0) (Some 1) 0.3 0.05 1 1 1 false
             ["cool1"; "cool2"] in
  length (mp_cycle_params
            (state_of (BleedIntra.add_cycle_params h o empty_mp_cycle)))
  = 4 * 2.
Proof.
  intros h o.
  destruct (proj1 (proj2 (proj2 (proj2 (bleedintra_phases h o))))
              empty_mp_cycle 1 "hpc" "hpt" eq_refl eq_refl eq_refl)
    as [-> Hlen].
  exact Hlen.
Defined.

(** C8, counterexample: a BleedIntra with a target and two bleed names
    declares eight parameters, not four, and its [connect] declares two
    flow edges. *)
Lemma bleedintra_two_bleeds :
  let h := [ODuct (mkDuct "hpc" None 0.3 0 false true true);
            ODuct (mkDuct "hpt" None 0.3 0 true true true)] in
  let o := mkBleedIntra "cool" (Some 0) (Some 1) 0.3 0.05 1 1 1 false
             ["cool1"; "cool2"] in
  bleedintra_target o = Some 1
  /\ length (mp_cycle_params
               (state_of (BleedIntra.add_cycle_params h o empty_mp_cycle)))
     = 8
  /\ length (cycle_flows (state_of (BleedIntra.connect h o empty_cycle))) = 2.
Proof. repeat split. Qed.

(** ** Constructing a shaft *)

Lemma shaft_attr_with_shaft (s : ref) (o : object) (r : ref) :
  BaseTurboMachinery.shaft_attr o = Some r ->
  BaseTurboMachinery.shaft_attr (BaseTurboMachinery.with_shaft s o) = Some s.
Proof. destruct o; simpl; intros H; try discriminate; reflexivity. Qed.

Lemma shaft_at_alter_eq (h : heap) (a : addr) (s r : ref) :
  shaft_at h a = Some r ->
  shaft_at (alter (BaseTurboMachinery.with_shaft s) a h) a = Some s.
Proof.
  unfold shaft_at, heap, addr in *. rewrite list_lookup_alter_eq.
  destruct (h !! a) as [o |]; simpl; [| discriminate].
  apply shaft_attr_with_shaft.
Qed.

Lemma shaft_at_alter_ne (h : heap) (a b : addr) (s : ref) :
  a <> b ->
  shaft_at (alter (BaseTurboMachinery.with_shaft s) a h) b = shaft_at h b.
Proof.
  intros Hne. unfold shaft_at, heap, addr in *.
  now rewrite list_lookup_alter_ne.
Qed.

(** Objects created later do not disturb the earlier ones. *)
Lemma shaft_at_alloc (h : heap) (o : object) (a : addr) (r : ref) :
  shaft_at h a = Some r -> shaft_at (h ++ [o]) a = Some r.
Proof.
  unfold shaft_at, heap, addr in *. intros H.
  destruct (h !! a) as [o' |] eqn:Ha; [| discriminate].
  now rewrite (lookup_app_l_Some _ _ _ _ Ha).
Qed.

Lemma bind_connection_unbound (self conn : addr) (h : heap) :
  shaft_at h conn = Some None ->
  Shaft.bind_connection self conn h
  = (alter (BaseTurboMachinery.with_shaft (Some self)) conn h, Ok tt).
Proof.
  intros H. unfold Shaft.bind_connection, bind, BaseTurboMachinery.shaft.
  fold (shaft_at h conn). now rewrite H.
Qed.

Lemma bind_connection_bound (self conn s : addr) (h : heap) :
  shaft_at h conn = Some (Some s) ->
  Shaft.bind_connection self conn h = (h, Raise DuplicateShaftBinding).
Proof.
  intros H. unfold Shaft.bind_connection, bind, BaseTurboMachinery.shaft.
  fold (shaft_at h conn). now rewrite H.
Qed.

(** The loop over connections of which one is bound already: it ends in
    the duplicate-binding error, whichever connection it meets first. *)
Lemma bind_connections_duplicate (self : addr) (connections : list addr) :
  forall (h : heap) (c s : addr),
    c ∈ connections ->
    shaft_at h c = Some (Some s) ->
    (forall x, x ∈ connections -> is_Some (shaft_at h x)) ->
    outcome (for_each connections (Shaft.bind_connection self) h)
    = Raise DuplicateShaftBinding.
Proof.
  induction connections as [| x l IH]; intros h c s Hin Hc Hall.
  - now apply elem_of_nil in Hin.
  - destruct (Hall x (list_elem_of_here _ _)) as [[s' |] Hx]; simpl.
    + erewrite bind_fail by (eapply bind_connection_bound; eassumption).
      reflexivity.
    + erewrite bind_ok by (apply bind_connection_unbound; eassumption).
      assert (x <> c) as Hne by (intros ->; congruence).
      apply (IH _ c s).
      * apply elem_of_cons in Hin as [-> | Hin]; [congruence | exact Hin].
      * now rewrite shaft_at_alter_ne.
      * intros y Hy. destruct (decide (x = y)) as [<- | Hxy].
        -- erewrite shaft_at_alter_eq by eassumption. eauto.
        -- rewrite shaft_at_alter_ne by assumption.
           apply Hall. now apply list_elem_of_further.
Qed.

(** What [Shaft.new] does before the loop: the shaft object is stored at
    the next free address, and the loop runs over its connections. *)
Lemma shaft_new_unfold (name : string) (connections : list addr)
    (rpm_design power_loss : pyfloat) (h : heap) :
  Shaft.new name (Some connections) rpm_design power_loss h
  = bind (for_each connections (Shaft.bind_connection (length h)))
      (fun _ => ret (length h))
      (h ++ [OShaft (mkShaft name (Some connections) rpm_design power_loss)]).
Proof.
  unfold Shaft.new, Shaft.__post_init__, alloc, bind, get.
  unfold heap, addr in *.
  rewrite lookup_app_r by lia. now rewrite Nat.sub_diag.
Qed.

(** C4: when a turbomachinery element is already bound to a shaft,
    constructing a Shaft whose connections (all of them turbomachinery
    elements, as the field is declared) contain that element ends in
    the duplicate-binding [ValueError], raised by the constructor. *)
Theorem second_shaft_is_refused (h : heap) (name : string)
    (connections : list addr) (rpm_design power_loss : pyfloat) (c s : addr) :
  c ∈ connections ->
  shaft_at h c = Some (Some s) ->
  (forall x, x ∈ connections -> is_Some (shaft_at h x)) ->
  outcome (Shaft.new name (Some connections) rpm_design power_loss h)
  = Raise DuplicateShaftBinding.
Proof.
  intros Hin Hc Hall. rewrite shaft_new_unfold.
  pose proof (bind_connections_duplicate (length h) connections
                (h ++ [OShaft (mkShaft name (Some connections) rpm_design
                                 power_loss)]) c s Hin
                (shaft_at_alloc _ _ _ _ Hc)) as Hloop.
  unfold outcome in *. unfold bind.
  destruct (for_each connections (Shaft.bind_connection (length h)) _)
    as [h' [[] | e]] eqn:Hrun; simpl in *.
  - exfalso. assert (Ok tt = Raise DuplicateShaftBinding) as Habs; [| discriminate].
    apply Hloop. intros x Hx. destruct (Hall x Hx) as [r Hr].
    exists r. now apply shaft_at_alloc.
  - f_equal. enough (@Raise unit e = Raise DuplicateShaftBinding) as Heq
      by now inversion Heq.
    apply Hloop. intros x Hx. destruct (Hall x Hx) as [r Hr].
    exists r. now apply shaft_at_alloc.
Qed.

Lemma second_shaft_is_refused_witness :
  let h := [OCompressor (mkCompressor "hpc" (Some 2) (Some 1) HPC 0.01 5 1);
            OTurbine (mkTurbine "hpt" (Some 2) None HPT 0.4 1);
            OShaft (mkShaft "hp_shaft" (Some [0; 1]) 10000 0)] in
  outcome (Shaft.new "lp_shaft" (Some [1; 0]) 8000 0 h)
  = Raise DuplicateShaftBinding.
Proof.
  intros h.
  apply (second_shaft_is_refused h "lp_shaft" [1; 0] 8000 0 0 2).
  - apply list_elem_of_further, list_elem_of_here.
  - reflexivity.
  - intros x Hx.
    apply elem_of_cons in Hx as [-> | Hx]; [eexists; reflexivity |].
    apply elem_of_cons in Hx as [-> | Hx]; [eexists; reflexivity |].
    now apply elem_of_nil in Hx.
Defined.

Lemma for_each_app {St A} (body : A -> M St unit) (l1 l2 : list A) (s : St) :
  for_each (l1 ++ l2) body s
  = bind (for_each l1 body) (fun _ => for_each l2 body) s.
Proof.
  revert s. induction l1 as [| x l1 IH]; intros s; simpl.
  - reflexivity.
  - unfold bind in *. destruct (body x s) as [s' [[] | e]].
    + apply IH.
    + reflexivity.
Qed.

(** The loop over distinct, unbound connections binds each of them to
    the shaft and touches nothing else. *)
Lemma bind_connections_unbound (self : addr) (pre : list addr) :
  forall h : heap,
    NoDup pre ->
    (forall x, x ∈ pre -> shaft_at h x = Some None) ->
    exists h' : heap,
      for_each pre (Shaft.bind_connection self) h = (h', Ok tt)
      /\ (forall x, x ∈ pre -> shaft_at h' x = Some (Some self))
      /\ (forall y, y ∉ pre -> h' !! y = h !! y).
Proof.
  induction pre as [| x l IH]; intros h Hnd Hall.
  - exists h. split; [reflexivity |]. split; [| reflexivity].
    intros x Hx. now apply elem_of_nil in Hx.
  - pose proof (NoDup_cons_1_1 _ _ Hnd) as Hx.
    apply NoDup_cons_1_2 in Hnd.
    pose proof (Hall x (list_elem_of_here _ _)) as Hxu.
    destruct (IH (alter (BaseTurboMachinery.with_shaft (Some self)) x h) Hnd)
      as (h' & Hrun & Hbound & Hrest).
    { intros y Hy. rewrite shaft_at_alter_ne by (intros ->; contradiction).
      apply Hall. now apply list_elem_of_further. }
    exists h'. split; [| split].
    + simpl. erewrite bind_ok by (now apply bind_connection_unbound).
      exact Hrun.
    + intros z Hz. apply elem_of_cons in Hz as [-> | Hz].
      * unfold shaft_at. rewrite (Hrest x Hx).
        fold (shaft_at (alter (BaseTurboMachinery.with_shaft (Some self)) x h) x).
        now apply (shaft_at_alter_eq h x (Some self) None).
      * now apply Hbound.
    + intros y Hy. apply not_elem_of_cons in Hy as [Hne Hy].
      rewrite (Hrest y Hy). unfold heap, addr in *.
      now rewrite list_lookup_alter_ne.
Qed.

(** C9: constructing a Shaft is not atomic.  Let the connections be
    [pre ++ c :: post], where the connections of [pre] are distinct and
    unbound and [c], at position [length pre], has a shaft already: one
    bound earlier, or the new shaft itself because [c] occurs in [pre].
    Then construction raises the duplicate-binding error, and in the
    store it leaves behind every connection of [pre] is bound to the new
    shaft, which is stored at its address; nothing is rolled back. *)
Theorem failed_shaft_keeps_earlier_bindings (h : heap) (name : string)
    (pre post : list addr) (c : addr) (rpm_design power_loss : pyfloat) :
  NoDup pre ->
  (forall x, x ∈ pre -> shaft_at h x = Some None) ->
  (c ∈ pre \/ exists s, shaft_at h c = Some (Some s)) ->
  let connections := pre ++ c :: post in
  let r := Shaft.new name (Some connections) rpm_design power_loss h in
  outcome r = Raise DuplicateShaftBinding
  /\ (forall x, x ∈ pre -> shaft_at (state_of r) x = Some (Some (length h)))
  /\ state_of r !! length h
     = Some (OShaft (mkShaft name (Some connections) rpm_design power_loss)).
Proof.
  intros Hnd Hall Hc connections r. subst r.
  rewrite shaft_new_unfold.
  set (h1 := h ++ [OShaft (mkShaft name (Some connections) rpm_design
                             power_loss)]).
  destruct (bind_connections_unbound (length h) pre h1 Hnd)
    as (h' & Hrun & Hbound & Hrest).
  { intros x Hx. apply shaft_at_alloc. now apply Hall. }
  assert (exists s, shaft_at h' c = Some (Some s)) as [s Hcs].
  { destruct Hc as [Hc | [s Hc]].
    - eexists. now apply Hbound.
    - exists s. unfold shaft_at. rewrite Hrest.
      + fold (shaft_at h1 c). now apply shaft_at_alloc.
      + intros Hin. rewrite (Hall c Hin) in Hc. discriminate. }
  assert (for_each connections (Shaft.bind_connection (length h)) h1
          = (h', Raise DuplicateShaftBinding)) as Hloop.
  { unfold connections. rewrite for_each_app.
    erewrite bind_ok by exact Hrun. simpl.
    erewrite bind_fail by (eapply bind_connection_bound; exact Hcs).
    reflexivity. }
  erewrite bind_fail by exact Hloop.
  split; [reflexivity |]. split; [exact Hbound |].
  unfold state_of. simpl. rewrite Hrest.
  - unfold h1, heap, addr in *.
    rewrite lookup_app_r by lia. now rewrite Nat.sub_diag.
  - intros Hin. pose proof (Hall _ Hin) as Hs. unfold shaft_at in Hs.
    unfold heap, addr in *.
    rewrite lookup_ge_None_2 in Hs by lia. discriminate.
Qed.

Lemma failed_shaft_keeps_earlier_bindings_witness :
  let h := [OCompressor (mkCompressor "lpc" None (Some 1) LPC 0.01 5 1);
            OCompressor (mkCompressor "hpc" (Some 3) None HPC 0.01 5 1);
            OTurbine (mkTurbine "hpt" (Some 3) None HPT 0.4 1);
            OShaft (mkShaft "hp_shaft" (Some [1; 2]) 10000 0)] in
  let r := Shaft.new "lp_shaft" (Some ([0] ++ 2 :: [])) 8000 0 h in
  outcome r = Raise DuplicateShaftBinding
  /\ (forall x, x ∈ [0] -> shaft_at (state_of r) x = Some (Some 4))
  /\ state_of r !! 4
     = Some (OShaft (mkShaft "lp_shaft" (Some [0; 2]) 8000 0)).
Proof.
  intros h.
  apply (failed_shaft_keeps_earlier_bindings h "lp_shaft" [0] [] 2 8000 0).
  - apply NoDup_singleton.
  - intros x Hx. apply elem_of_cons in Hx as [-> | Hx]; [reflexivity |].
    now apply elem_of_nil in Hx.
  - right. exists 3. reflexivity.
Defined.

(** ** Equality and hashing *)

Lemma and_then_assoc (r1 r2 r3 : result bool) :
  r1 &&& r2 &&& r3 = and_then r1 (and_then r2 r3).
Proof. destruct r1 as [[] |]; reflexivity. Qed.

Lemma py_id_inj (a b : addr) : py_id a = py_id b -> a = b.
Proof. unfold py_id. lia. Qed.

Lemma architecture_hash (h : heap) (a : addr) (x : TurbofanArchitecture) :
  h !! a = Some (OTurbofanArchitecture x) ->
  TurbofanArchitecture.hash h a = Ok (py_id a).
Proof. intros Ha. unfold TurbofanArchitecture.hash. now rewrite Ha. Qed.

Lemma architecture_eq (h : heap) (a b : addr) (x y : TurbofanArchitecture) :
  h !! a = Some (OTurbofanArchitecture x) ->
  h !! b = Some (OTurbofanArchitecture y) ->
  TurbofanArchitecture.__eq__ h a b = Ok (bool_decide (a = b)).
Proof.
  intros Ha Hb. unfold TurbofanArchitecture.__eq__.
  rewrite (architecture_hash h a x Ha), (architecture_hash h b y Hb).
  f_equal. destruct (decide (a = b)) as [-> | Hne].
  - rewrite bool_decide_true by reflexivity. apply Z.eqb_refl.
  - rewrite bool_decide_false by assumption.
    apply Z.eqb_neq. intros Heq. now apply Hne, py_id_inj.
Qed.

(** C2: two distinct TurbofanArchitecture objects compare unequal, also
    when they hold the same list of elements, and an architecture
    compares equal to itself; this holds for [__eq__] and for the [==]
    operator that dispatches to it. *)
Theorem architecture_equality_is_identity (fuel : nat) (h : heap) (a b : addr)
    (x y : TurbofanArchitecture) :
  h !! a = Some (OTurbofanArchitecture x) ->
  h !! b = Some (OTurbofanArchitecture y) ->
  a <> b ->
  TurbofanArchitecture.__eq__ h a b = Ok false
  /\ py_eq (S fuel) h a b = Ok false
  /\ TurbofanArchitecture.__eq__ h a a = Ok true
  /\ py_eq (S fuel) h a a = Ok true.
Proof.
  intros Ha Hb Hne.
  pose proof (architecture_eq h a b x y Ha Hb) as Hab.
  pose proof (architecture_eq h a a x x Ha Ha) as Haa.
  rewrite bool_decide_false in Hab by assumption.
  rewrite bool_decide_true in Haa by reflexivity.
  repeat split; try assumption.
  - simpl. now rewrite Ha, Hb.
  - simpl. now rewrite Ha.
Qed.

Lemma architecture_equality_is_identity_witness :
  let h := [OInlet (mkInlet "inlet" None 0.6 1);
            OTurbofanArchitecture (mkTurbofanArchitecture [0]);
            OTurbofanArchitecture (mkTurbofanArchitecture [0])] in
  TurbofanArchitecture.__eq__ h 1 2 = Ok false
  /\ py_eq 1 h 1 2 = Ok false
  /\ TurbofanArchitecture.__eq__ h 1 1 = Ok true
  /\ py_eq 1 h 1 1 = Ok true.
Proof.
  intros h.
  apply (architecture_equality_is_identity 0 h 1 2
           (mkTurbofanArchitecture [0]) (mkTurbofanArchitecture [0])).
  - reflexivity.
  - reflexivity.
  - lia.
Defined.

Ltac split_Forall :=
  repeat match goal with
         | H : Forall _ (_ :: _) |- _ =>
             let Hx := fresh "Hx" in
             apply Forall_cons_1 in H as [Hx H]; cbn in Hx
         end.

Lemma and_then_true (r k : result bool) :
  r &&& k = Ok true <-> r = Ok true /\ k = Ok true.
Proof.
  destruct r as [[] | e]; simpl; split; try tauto;
    intros H; try discriminate; destruct H; discriminate.
Qed.

Lemma decide_eq_true {A} `{EqDecision A} (x y : A) :
  @Ok bool (bool_decide (x = y)) = Ok true <-> x = y.
Proof.
  split.
  - intros H. injection H as H. now apply bool_decide_eq_true in H.
  - intros ->. now rewrite bool_decide_true.
Qed.

Lemma obj_eq_true (fuel : nat) (h : heap) (x y : addr) :
  (if decide (x = y) then Ok true else py_eq fuel h x y) = Ok true
  <-> obj_match fuel h x y.
Proof.
  unfold obj_match. destruct (decide (x = y)); tauto.
Qed.

Lemma items_eq_true {A} (f : A -> A -> result bool) (l1 l2 : list A) :
  length l1 = length l2 ->
  items_eq f l1 l2 = Ok true <-> Forall2 (fun x y => f x y = Ok true) l1 l2.
Proof.
  revert l2. induction l1 as [| x l1 IH]; intros [| y l2] Hlen;
    try discriminate; simpl.
  - split; [constructor | reflexivity].
  - rewrite and_then_true, IH by (simpl in Hlen; lia). split.
    + intros [? ?]. now constructor.
    + intros H. apply Forall2_cons_1 in H. exact H.
Qed.

Lemma list_eq_true {A} (f : A -> A -> result bool) (l1 l2 : list A) :
  list_eq f l1 l2 = Ok true <-> Forall2 (fun x y => f x y = Ok true) l1 l2.
Proof.
  unfold list_eq. case_decide as Hlen.
  - now apply items_eq_true.
  - split; [discriminate |]. intros H. destruct Hlen.
    eapply Forall2_length, H.
Qed.

Lemma conns_eq_true (fuel : nat) (h : heap) (l1 l2 : list addr) :
  list_eq (fun x y => if decide (x = y) then Ok true else py_eq fuel h x y)
    l1 l2 = Ok true
  <-> Forall2 (obj_match fuel h) l1 l2.
Proof.
  rewrite list_eq_true. split; intros H; eapply Forall2_impl; try exact H;
    intros x y; apply obj_eq_true.
Qed.

Lemma forall2_cons_iff {A B} (P : A -> B -> Prop) x y l k :
  Forall2 P (x :: l) (y :: k) <-> P x y /\ Forall2 P l k.
Proof.
  split.
  - apply Forall2_cons_1.
  - intros [? ?]. now constructor.
Qed.

Lemma forall2_nil_iff {A B} (P : A -> B -> Prop) : Forall2 P [] [] <-> True.
Proof. split; [easy | constructor]. Qed.

Ltac split_hyps :=
  repeat match goal with H : _ /\ _ |- _ => destruct H end.

Ltac value_equality :=
  unfold fields_match, str_eq, bool_eq, enum_eq, opt_str_eq, str_list_eq;
  cbn [plain_fields float_fields ref_fields connections_of ref_match
       conns_match];
  rewrite ?and_then_true, ?decide_eq_true, ?obj_eq_true, ?conns_eq_true,
    ?forall2_cons_iff, ?forall2_nil_iff;
  cbn;
  split;
  [ intros; split_hyps; subst; repeat split;
    first [ assumption | reflexivity | congruence ]
  | intros (Hplain & ?); injection Hplain; intros; split_hyps; subst;
    repeat split;
    first [ assumption | reflexivity | contradiction | congruence ] ].

(** The comparison of two elements answers [True] exactly when their
    fields match by value. *)
Lemma py_eq_true_iff (fuel : nat) (h : heap) (a b : addr) (oa ob : object) :
  h !! a = Some oa ->
  h !! b = Some ob ->
  is_element oa = true ->
  is_element ob = true ->
  py_eq (S fuel) h a b = Ok true <-> fields_match fuel h oa ob.
Proof.
  intros Ha Hb Hela Helb.
  assert (a = b -> oa = ob) as Hab by (intros ->; congruence).
  cbn [py_eq]. rewrite Ha, Hb.
  destruct oa as [x|x|x|x|x|x|x|x|x|x|x|x|x|x],
           ob as [y|y|y|y|y|y|y|y|y|y|y|y|y|y];
    try discriminate;
    try (split;
         [ intros Heq; apply decide_eq_true in Heq;
           specialize (Hab Heq); discriminate Hab
         | intros (Hp & _); cbn in Hp; discriminate Hp ]);
    clear Hab; destruct x, y; cbn -[and_then str_eq bool_eq enum_eq opt_str_eq
                                     str_list_eq float_eq list_eq];
    repeat match goal with
           | r : ref |- _ => destruct r
           | r : option (list addr) |- _ => destruct r
           end;
    value_equality.
Qed.

(** Objects that differ at most in their shaft have matching fields. *)
Lemma fields_match_same (fuel : nat) (h : heap) (oa ob : object) :
  same_but_shaft oa ob ->
  Forall not_nan (float_fields oa) ->
  fields_match fuel h oa ob.
Proof.
  unfold same_but_shaft, fields_match. intros Hsame Hfl.
  destruct oa as [x|x|x|x|x|x|x|x|x|x|x|x|x|x],
           ob as [y|y|y|y|y|y|y|y|y|y|y|y|y|y];
    try discriminate Hsame;
    destruct x, y; cbn in Hsame; injection Hsame as Hsame;
    repeat intro; subst;
    cbn [plain_fields float_fields ref_fields connections_of] in *;
    split_Forall;
    (split; [reflexivity |]);
    (split; [repeat constructor; assumption |]);
    (split;
     [ repeat constructor;
       repeat match goal with
              | r : ref |- _ => destruct r
              end; cbn; solve [ exact I | now left ]
     | ]);
    try exact I.
  - destruct shaft_connections1 as [l |]; cbn; [| exact I].
    induction l; constructor; [now left | assumption].
Qed.

(** C1, as the code has it: equality of elements is by value.  The
    comparison of two elements answers [True] exactly when they are of
    one class and their fields match: equal strings, flags and
    enumeration members, equal floats, and objects that are identical or
    compare equal.  So two elements of one class whose fields hold the
    same values (floats other than NaN) compare equal also when they are
    distinct objects; the [shaft] back-reference, not being a dataclass
    field, plays no part: the two may be bound to different shafts.  The
    [__hash__] that [ArchElement] defines is the identity of the object:
    two instances of [ArchElement] hash alike only if they are one
    object, whatever their names. *)
Theorem element_equality_is_by_value (fuel : nat) (h : heap) (a b : addr)
    (oa ob : object) :
  h !! a = Some oa ->
  h !! b = Some ob ->
  is_element oa = true ->
  is_element ob = true ->
  (py_eq (S fuel) h a b = Ok true <-> fields_match fuel h oa ob)
  /\ (same_but_shaft oa ob -> Forall not_nan (float_fields oa) ->
      py_eq (S fuel) h a b = Ok true)
  /\ (forall x y ex ey,
        h !! x = Some (OArchElement ex) ->
        h !! y = Some (OArchElement ey) ->
        TurbofanArchitecture.hash h x = Ok (py_id x)
        /\ (TurbofanArchitecture.hash h x = TurbofanArchitecture.hash h y
            <-> x = y)).
Proof.
  intros Ha Hb Hela Helb. split; [| split].
  - now apply py_eq_true_iff.
  - intros Hsame Hfl.
    apply (py_eq_true_iff fuel h a b oa ob Ha Hb Hela Helb).
    now apply fields_match_same.
  - intros x y ex ey Hx Hy. unfold TurbofanArchitecture.hash.
    rewrite Hx, Hy. split; [reflexivity |]. split.
    + intros Heq. injection Heq as Heq. now apply py_id_inj.
    + now intros ->.
Qed.

Lemma element_equality_is_by_value_witness :
  let h := [OCompressor (mkCompressor "hpc" (Some 4) None HPC 0.01 5 1);
            OCompressor (mkCompressor "hpc" (Some 5) None HPC 0.01 5 1);
            OArchElement (mkArchElement "element");
            OArchElement (mkArchElement "element");
            OShaft (mkShaft "hp_shaft" (Some [0]) 10000 0);
            OShaft (mkShaft "lp_shaft" (Some [1]) 8000 0)] in
  py_eq 1 h 0 1 = Ok true
  /\ TurbofanArchitecture.hash h 2 = Ok (py_id 2)
  /\ (TurbofanArchitecture.hash h 2 = TurbofanArchitecture.hash h 3 <-> 2 = 3).
Proof.
  intros h.
  destruct (element_equality_is_by_value 0 h 0 1
              (OCompressor (mkCompressor "hpc" (Some 4) None HPC 0.01 5 1))
              (OCompressor (mkCompressor "hpc" (Some 5) None HPC 0.01 5 1))
              eq_refl eq_refl eq_refl eq_refl)
    as (_ & Hsame & Hhash).
  split.
  - apply Hsame; [reflexivity | repeat constructor].
  - exact (Hhash 2 3 (mkArchElement "element") (mkArchElement "element")
             eq_refl eq_refl).
Defined.

(** C1, counterexample: two Inlets created one after the other with the
    same name, target, mach and p_recovery are distinct objects and
    compare equal. *)
Lemma equal_inlets_compare_equal :
  let r := (a <- new_Inlet "inlet" None 0.6 1 ;;
            b <- new_Inlet "inlet" None 0.6 1 ;;
            ret (a, b)) [] in
  outcome r = Ok (0, 1)
  /\ py_eq 1 (state_of r) 0 1 = Ok true.
Proof. split; reflexivity. Qed.

(** * Further properties of the code *)

(** ** Constructing a shaft: success *)

(** The loop over distinct, unbound connections, with the objects it
    leaves: each connection is the object it was with the shaft set. *)
Lemma bind_connections_objects (self : addr) (pre : list addr) :
  forall h : heap,
    NoDup pre ->
    (forall x, x ∈ pre -> shaft_at h x = Some None) ->
    exists h' : heap,
      for_each pre (Shaft.bind_connection self) h = (h', Ok tt)
      /\ length h' = length h
      /\ (forall x, x ∈ pre ->
            h' !! x = BaseTurboMachinery.with_shaft (Some self) <$> h !! x)
      /\ (forall y, y ∉ pre -> h' !! y = h !! y).
Proof.
  induction pre as [| x l IH]; intros h Hnd Hall.
  - exists h. repeat split; try reflexivity.
    intros x Hx. now apply elem_of_nil in Hx.
  - pose proof (NoDup_cons_1_1 _ _ Hnd) as Hx.
    apply NoDup_cons_1_2 in Hnd.
    pose proof (Hall x (list_elem_of_here _ _)) as Hxu.
    destruct (IH (alter (BaseTurboMachinery.with_shaft (Some self)) x h) Hnd)
      as (h' & Hrun & Hlen & Hobj & Hrest).
    { intros y Hy. rewrite shaft_at_alter_ne by (intros ->; contradiction).
      apply Hall. now apply list_elem_of_further. }
    exists h'. split; [| split; [| split]].
    + simpl. erewrite bind_ok by (now apply bind_connection_unbound).
      exact Hrun.
    + rewrite Hlen. unfold heap in *. apply length_alter.
    + intros z Hz. apply elem_of_cons in Hz as [-> | Hz].
      * rewrite (Hrest x Hx). unfold heap, addr in *.
        apply list_lookup_alter_eq.
      * rewrite (Hobj z Hz). unfold heap, addr in *.
        rewrite list_lookup_alter_ne by (intros ->; contradiction).
        reflexivity.
    + intros y Hy. apply not_elem_of_cons in Hy as [Hne Hy].
      rewrite (Hrest y Hy). unfold heap, addr in *.
      now rewrite list_lookup_alter_ne.
Qed.

(** An address that holds a turbomachinery element lies in the store. *)
Lemma shaft_at_lt (h : heap) (a : addr) (r : ref) :
  shaft_at h a = Some r -> a < length h.
Proof.
  unfold shaft_at. intros H.
  destruct (h !! a) as [o |] eqn:Ha; [| discriminate].
  unfold heap, addr in *. now apply lookup_lt_Some in Ha.
Qed.

(** The store a successful [Shaft.new] leaves. *)
Lemma shaft_new_state (h : heap) (name : string)
    (connections : list addr) (rpm_design power_loss : pyfloat) :
  NoDup connections ->
  (forall x, x ∈ connections -> shaft_at h x = Some None) ->
  let r := Shaft.new name (Some connections) rpm_design power_loss h in
  outcome r = Ok (length h)
  /\ length (state_of r) = S (length h)
  /\ state_of r !! length h
     = Some (OShaft (mkShaft name (Some connections) rpm_design power_loss))
  /\ (forall x, x ∈ connections ->
        state_of r !! x
        = BaseTurboMachinery.with_shaft (Some (length h)) <$> h !! x)
  /\ (forall x, x ∈ connections ->
        shaft_at (state_of r) x = Some (Some (length h)))
  /\ (forall y, y ∉ connections -> y < length h -> state_of r !! y = h !! y).
Proof.
  intros Hnd Hall r. subst r. rewrite shaft_new_unfold.
  set (sh := OShaft (mkShaft name (Some connections) rpm_design power_loss)).
  destruct (bind_connections_objects (length h) connections (h ++ [sh]) Hnd)
    as (h' & Hrun & Hlen & Hobj & Hrest).
  { intros x Hx. apply shaft_at_alloc. now apply Hall. }
  erewrite bind_ok by exact Hrun. unfold ret, outcome, state_of. simpl.
  assert (forall x, x ∈ connections -> (h ++ [sh]) !! x = h !! x) as Hold.
  { intros x Hx. pose proof (shaft_at_lt _ _ _ (Hall x Hx)).
    unfold heap, addr in *. now apply lookup_app_l. }
  unfold heap, addr in *.
  split; [reflexivity |]. split; [| split; [| split; [| split]]].
  - rewrite Hlen, length_app. simpl. lia.
  - rewrite Hrest.
    + unfold heap, addr in *.
      rewrite lookup_app_r by lia. now rewrite Nat.sub_diag.
    + intros Hin. pose proof (shaft_at_lt _ _ _ (Hall _ Hin)). lia.
  - intros x Hx. now rewrite (Hobj x Hx), (Hold x Hx).
  - intros x Hx. pose proof (Hall x Hx) as Hu.
    unfold shaft_at, heap, addr in *. rewrite (Hobj x Hx), (Hold x Hx).
    destruct (h !! x) as [o |]; [| discriminate]. simpl in *.
    now apply (shaft_attr_with_shaft _ _ None).
  - intros y Hy Hlt. rewrite (Hrest y Hy).
    unfold heap, addr in *. now apply lookup_app_l.
Qed.

(** X1: constructing a Shaft over distinct, unbound turbomachinery
    elements succeeds.  The shaft is a new object at the next free
    address; every connection is the element it was, now bound to the
    new shaft; every other object is unchanged. *)
Theorem shaft_new_binds_connections (h : heap) (name : string)
    (connections : list addr) (rpm_design power_loss : pyfloat) :
  NoDup connections ->
  (forall x, x ∈ connections -> shaft_at h x = Some None) ->
  let r := Shaft.new name (Some connections) rpm_design power_loss h in
  outcome r = Ok (length h)
  /\ length (state_of r) = S (length h)
  /\ state_of r !! length h
     = Some (OShaft (mkShaft name (Some connections) rpm_design power_loss))
  /\ (forall x, x ∈ connections ->
        state_of r !! x
        = BaseTurboMachinery.with_shaft (Some (length h)) <$> h !! x)
  /\ (forall x, x ∈ connections ->
        shaft_at (state_of r) x = Some (Some (length h)))
  /\ (forall y, y ∉ connections -> y < length h -> state_of r !! y = h !! y).
Proof. intros Hnd Hall. now apply shaft_new_state. Qed.

Lemma shaft_new_binds_connections_witness :
  let h := [OCompressor (mkCompressor "hpc" None (Some 1) HPC 0.01 5 1);
            OTurbine (mkTurbine "hpt" None None HPT 0.4 1)] in
  let r := Shaft.new "hp_shaft" (Some [0; 1]) 10000 0 h in
  outcome r = Ok 2
  /\ shaft_at (state_of r) 0 = Some (Some 2)
  /\ shaft_at (state_of r) 1 = Some (Some 2).
Proof.
  intros h.
  assert (forall x, x ∈ [0; 1] -> shaft_at h x = Some None) as Hall.
  { intros x Hx.
    apply elem_of_cons in Hx as [-> | Hx]; [reflexivity |].
    apply elem_of_cons in Hx as [-> | Hx]; [reflexivity |].
    now apply elem_of_nil in Hx. }
  assert (NoDup [0; 1]) as Hnd.
  { apply NoDup_cons_2; [| apply NoDup_singleton].
    intros Hin. apply elem_of_cons in Hin as [Heq | Hin]; [lia |].
    now apply elem_of_nil in Hin. }
  destruct (shaft_new_binds_connections h "hp_shaft" [0; 1] 10000 0 Hnd Hall)
    as (Hok & _ & _ & _ & Hb & _).
  split; [exact Hok |]. split; apply Hb.
  - apply list_elem_of_here.
  - apply list_elem_of_further, list_elem_of_here.
Defined.

(** ** Constructing a shaft: when it succeeds *)

(** The outcome of [Shaft.new] is that of its loop. *)
Lemma shaft_new_outcome (name : string) (connections : list addr)
    (rpm_design power_loss : pyfloat) (h : heap) :
  outcome (Shaft.new name (Some connections) rpm_design power_loss h)
  = match outcome (for_each connections (Shaft.bind_connection (length h))
                     (h ++ [OShaft (mkShaft name (Some connections) rpm_design
                                      power_loss)])) with
    | Ok _ => Ok (length h)
    | Raise e => Raise e
    end.
Proof.
  rewrite shaft_new_unfold. unfold bind, outcome.
  now destruct (for_each connections _ _) as [h' [[] | e]].
Qed.

(** A list of turbomachinery elements in which one occurs twice: the
    loop binds the first occurrence and is stopped by the second. *)
Lemma bind_connections_repeated (self : addr) (connections : list addr) :
  forall h : heap,
    (forall x, x ∈ connections -> is_Some (shaft_at h x)) ->
    ~ NoDup connections ->
    outcome (for_each connections (Shaft.bind_connection self) h)
    = Raise DuplicateShaftBinding.
Proof.
  induction connections as [| x l IH]; intros h Hall Hdup.
  - destruct Hdup. apply NoDup_nil_2.
  - destruct (Hall x (list_elem_of_here _ _)) as [[s |] Hx]; simpl.
    + erewrite bind_fail by (eapply bind_connection_bound; eassumption).
      reflexivity.
    + erewrite bind_ok by (now apply bind_connection_unbound).
      assert (forall y, y ∈ l ->
                is_Some (shaft_at
                           (alter (BaseTurboMachinery.with_shaft (Some self))
                              x h) y)) as Hall'.
      { intros y Hy. destruct (decide (x = y)) as [<- | Hxy].
        - erewrite shaft_at_alter_eq by eassumption. eauto.
        - rewrite shaft_at_alter_ne by assumption.
          apply Hall. now apply list_elem_of_further. }
      destruct (decide (x ∈ l)) as [Hin | Hnin].
      * apply (bind_connections_duplicate self l _ x self Hin); [| exact Hall'].
        now apply (shaft_at_alter_eq h x (Some self) None).
      * apply IH; [exact Hall' |].
        intros Hnd. apply Hdup. now apply NoDup_cons_2.
Qed.

(** X2: for a connection list of turbomachinery elements, constructing
    a Shaft succeeds exactly when the connections are pairwise distinct
    and all unbound; in every other case (a connection bound already, or
    one listed twice) it raises the duplicate-binding error. *)
Theorem shaft_new_succeeds_iff (h : heap) (name : string)
    (connections : list addr) (rpm_design power_loss : pyfloat) :
  (forall x, x ∈ connections -> is_Some (shaft_at h x)) ->
  let r := Shaft.new name (Some connections) rpm_design power_loss h in
  (outcome r = Ok (length h)
   <-> NoDup connections /\ Forall (fun x => shaft_at h x = Some None) connections)
  /\ (outcome r = Ok (length h) \/ outcome r = Raise DuplicateShaftBinding).
Proof.
  intros Hall r. subst r. rewrite shaft_new_outcome.
  set (h1 := h ++ [OShaft (mkShaft name (Some connections) rpm_design
                             power_loss)]).
  assert (forall x, x ∈ connections -> is_Some (shaft_at h1 x)) as Hall1.
  { intros x Hx. destruct (Hall x Hx) as [r Hr]. exists r.
    now apply shaft_at_alloc. }
  destruct (decide (Forall (fun x => shaft_at h x = Some None) connections))
    as [Hun | Hbound].
  - destruct (decide (NoDup connections)) as [Hnd | Hdup].
    + destruct (bind_connections_objects (length h) connections h1 Hnd)
        as (h' & Hrun & _).
      { intros x Hx. apply shaft_at_alloc.
        exact (proj1 (list.Forall_forall _ _) Hun x Hx). }
      rewrite Hrun. simpl. split; [| now left].
      split; [intros _; now split | reflexivity].
    + rewrite (bind_connections_repeated (length h) connections h1 Hall1 Hdup).
      split; [| now right].
      split; [discriminate | intros [Hnd _]; contradiction].
  - apply not_Forall_Exists in Hbound; [| intros x; apply _].
    apply list.Exists_exists in Hbound as (c & Hc & Hcb).
    destruct (Hall c Hc) as [[s |] Hs]; [| contradiction].
    rewrite (bind_connections_duplicate (length h) connections h1 c s Hc
               (shaft_at_alloc _ _ _ _ Hs) Hall1).
    split; [| now right].
    split; [discriminate |].
    intros [_ Hun]. destruct Hcb.
    exact (proj1 (list.Forall_forall _ _) Hun c Hc).
Qed.

Lemma shaft_new_succeeds_iff_witness :
  let h := [OCompressor (mkCompressor "hpc" None None HPC 0.01 5 1)] in
  outcome (Shaft.new "shaft" (Some [0; 0]) 10000 0 h) = Ok 1
  \/ outcome (Shaft.new "shaft" (Some [0; 0]) 10000 0 h)
     = Raise DuplicateShaftBinding.
Proof.
  intros h.
  apply (shaft_new_succeeds_iff h "shaft" [0; 0] 10000 0).
  intros x Hx.
  apply elem_of_cons in Hx as [-> | Hx]; [eexists; reflexivity |].
  apply elem_of_cons in Hx as [-> | Hx]; [eexists; reflexivity |].
  now apply elem_of_nil in Hx.
Defined.

(** ** From construction to realization *)

(** X3: a Compressor or Turbine that a successful [Shaft.new] has bound
    can be realized: [add_element] on the store the constructor leaves
    registers the element's module, and the input [Nmech] of that module
    is promoted to [<shaft name>_Nmech], the name under which the shaft
    promotes its own. *)
Theorem bound_turbomachinery_realizes (h : heap) (name : string)
    (connections : list addr) (rpm_design power_loss : pyfloat) (x : addr)
    (thermo : thermo_data) (design : bool) (c : Cycle) :
  NoDup connections ->
  (forall y, y ∈ connections -> shaft_at h y = Some None) ->
  x ∈ connections ->
  let h' :=
    state_of (Shaft.new name (Some connections) rpm_design power_loss h) in
  (forall o, h !! x = Some (OCompressor o) ->
     add_element h' x thermo design c
     = (mkCycle (cycle_modules c ++ [compressor_module o name thermo design])
          (cycle_flows c) (cycle_connects c) (cycle_input_defaults c),
        Ok (Some (length (cycle_modules c)))))
  /\ (forall o, h !! x = Some (OTurbine o) ->
        add_element h' x thermo design c
        = (mkCycle (cycle_modules c ++ [turbine_module o name thermo design])
             (cycle_flows c) (cycle_connects c) (cycle_input_defaults c),
           Ok (Some (length (cycle_modules c)))))
  /\ (forall o, h' !! length h = Some (OShaft o) ->
        2 <= length connections ->
        exists m,
          cycle_modules (state_of (add_element h' (length h) thermo design c))
          = cycle_modules c ++ [m]
          /\ mod_promotes_inputs m = [("Nmech", name +:+ "_Nmech")]).
Proof.
  intros Hnd Hall Hx h'.
  destruct (shaft_new_state h name connections rpm_design power_loss Hnd Hall)
    as (_ & _ & Hsh & Hobj & _ & _).
  fold h' in Hsh, Hobj.
  assert (attr_name h' (Some (length h)) = Ok name) as Hname.
  { unfold attr_name, heap, addr in *. now rewrite Hsh. }
  unfold heap, addr in *.
  split; [| split].
  - intros o Ho. unfold add_element. unfold heap, addr in *.
    rewrite (Hobj x Hx), Ho. simpl.
    erewrite (compressor_add_element_bound h' _ (length h) name);
      [reflexivity | reflexivity | exact Hname].
  - intros o Ho. unfold add_element. unfold heap, addr in *.
    rewrite (Hobj x Hx), Ho. simpl.
    erewrite (turbine_add_element_bound h' _ (length h) name);
      [reflexivity | reflexivity | exact Hname].
  - intros o Ho Hlen. rewrite Hsh in Ho. injection Ho as <-.
    unfold add_element. unfold heap, addr in *.
    rewrite Hsh. unfold Shaft.add_element. cbn [shaft_connections shaft_name].
    unfold addr in *. case_decide; [lia |].
    exists (mkModule name (pyc_Shaft (length connections))
              [("Nmech", name +:+ "_Nmech")] []).
    split; [destruct design; reflexivity | reflexivity].
Qed.

Lemma bound_turbomachinery_realizes_witness :
  let h := [OCompressor (mkCompressor "hpc" None (Some 1) HPC 0.01 5 1);
            OTurbine (mkTurbine "hpt" None None HPT 0.4 1)] in
  let h' := state_of (Shaft.new "hp_shaft" (Some [0; 1]) 10000 0 h) in
  add_element h' 0 7 false empty_cycle
  = (mkCycle [mkModule "hpc" (pyc_Compressor "HPCMap" false 7 AIR_MIX)
                [("Nmech", "hp_shaft_Nmech")] []] [] [] [],
     Ok (Some 0)).
Proof.
  intros h.
  assert (forall x, x ∈ [0; 1] -> shaft_at h x = Some None) as Hall.
  { intros x Hx.
    apply elem_of_cons in Hx as [-> | Hx]; [reflexivity |].
    apply elem_of_cons in Hx as [-> | Hx]; [reflexivity |].
    now apply elem_of_nil in Hx. }
  assert (NoDup [0; 1]) as Hnd.
  { apply NoDup_cons_2; [| apply NoDup_singleton].
    intros Hin. apply elem_of_cons in Hin as [Heq | Hin]; [lia |].
    now apply elem_of_nil in Hin. }
  apply (proj1 (bound_turbomachinery_realizes h "hp_shaft" [0; 1] 10000 0 0
                  7 false empty_cycle Hnd Hall (list_elem_of_here _ _))
           (mkCompressor "hpc" None (Some 1) HPC 0.01 5 1)).
  reflexivity.
Defined.

(** ** Wiring a shaft *)

Lemma str_of_nat_inj (a b : nat) : str_of_nat a = str_of_nat b -> a = b.
Proof.
  unfold str_of_nat. intros H.
  apply (f_equal NilEmpty.uint_of_string) in H.
  rewrite !NilEmpty.usu in H. injection H as H.
  apply (f_equal Nat.of_uint) in H.
  now rewrite !DecimalNat.Unsigned.of_to in H.
Qed.

(** The loop of [Shaft.connect], started at position [i0]. *)
Lemma shaft_connect_loop (h : heap) (shaft_name : string)
    (connections : list addr) (names : list string) :
  Forall2 (fun e n => attr_name h (Some e) = Ok n) connections names ->
  forall (i0 : nat) (c : Cycle),
    for_enumerate i0 connections (fun i element =>
      element_name <- lift (attr_name h (Some element)) ;;
      cycle_connect (element_name +:+ ".trq")
        (shaft_name +:+ ".trq_" +:+ str_of_nat i)) c
    = (mkCycle (cycle_modules c) (cycle_flows c)
         (cycle_connects c
            ++ imap (fun i n => (n +:+ ".trq",
                                 shaft_name +:+ ".trq_" +:+ str_of_nat (i0 + i)))
                 names)
         (cycle_input_defaults c), Ok tt).
Proof.
  induction 1 as [| e n l ns He _ IH]; intros i0 c; cbn [for_enumerate].
  - cbn. rewrite app_nil_r. now destruct c.
  - erewrite bind_ok
      by (unfold bind, lift; rewrite He; unfold cycle_connect, modify;
          reflexivity).
    rewrite IH.
    cbn [cycle_modules cycle_flows cycle_connects cycle_input_defaults].
    rewrite <- app_assoc, imap_cons, Nat.add_0_r. cbn [app].
    do 4 f_equal. apply imap_ext. intros i x _. cbn [compose].
    now rewrite Nat.add_succ_r.
Qed.

(** X4: [Shaft.connect], for connections whose names are [names],
    declares one torque connection per connection, in order: the [i]-th
    goes from [<element name>.trq] to [<shaft name>.trq_<i>].  There are
    as many of them as the [num_ports] that [add_element] gives the
    shaft module, and their shaft-side ports are pairwise distinct. *)
Theorem shaft_connect_wires_each_port (h : heap) (o : Shaft)
    (connections : list addr) (names : list string) (c : Cycle) :
  shaft_connections o = Some connections ->
  Forall2 (fun e n => attr_name h (Some e) = Ok n) connections names ->
  Shaft.connect h o c
  = (mkCycle (cycle_modules c) (cycle_flows c)
       (cycle_connects c ++ torque_connects (shaft_name o) names)
       (cycle_input_defaults c), Ok tt)
  /\ length (torque_connects (shaft_name o) names) = length connections
  /\ NoDup (snd <$> torque_connects (shaft_name o) names)
  /\ (forall i n, names !! i = Some n ->
        torque_connects (shaft_name o) names !! i
        = Some (n +:+ ".trq", shaft_name o +:+ ".trq_" +:+ str_of_nat i)).
Proof.
  intros Hc Hnames. split; [| split; [| split]].
  - unfold Shaft.connect. rewrite Hc.
    now rewrite (shaft_connect_loop h (shaft_name o) connections names Hnames).
  - unfold torque_connects. rewrite length_imap.
    symmetry. eapply Forall2_length, Hnames.
  - apply NoDup_alt. intros i j p Hi Hj.
    unfold torque_connects in Hi, Hj.
    rewrite list_lookup_fmap, list_lookup_imap in Hi, Hj.
    destruct (names !! i) as [ni |]; [| discriminate].
    destruct (names !! j) as [nj |]; [| discriminate].
    simpl in Hi, Hj. rewrite <- Hj in Hi. injection Hi as Hi.
    apply (inj (String.app _)) in Hi. apply (inj (String.app _)) in Hi.
    now apply str_of_nat_inj.
  - intros i n Hn. unfold torque_connects.
    now rewrite list_lookup_imap, Hn.
Qed.

Lemma shaft_connect_wires_each_port_witness :
  let h := [OCompressor (mkCompressor "hpc" (Some 2) (Some 1) HPC 0.01 5 1);
            OTurbine (mkTurbine "hpt" (Some 2) None HPT 0.4 1);
            OShaft (mkShaft "hp_shaft" (Some [0; 1]) 10000 0)] in
  Shaft.connect h (mkShaft "hp_shaft" (Some [0; 1]) 10000 0) empty_cycle
  = (mkCycle [] [] [("hpc.trq", "hp_shaft.trq_0"); ("hpt.trq", "hp_shaft.trq_1")]
       [], Ok tt).
Proof.
  intros h.
  refine (proj1 (shaft_connect_wires_each_port h
                   (mkShaft "hp_shaft" (Some [0; 1]) 10000 0) [0; 1]
                   ["hpc"; "hpt"] empty_cycle eq_refl _)).
  repeat constructor.
Defined.

(** ** Realization through the dispatcher *)

Ltac realized_module :=
  eexists; split;
  [ first [ reflexivity
          | cbn; rewrite alter_last_module; reflexivity ]
  | reflexivity ].

(** X5: [add_element], on whatever object it is called, either raises
    and leaves the cycle exactly as it was, or succeeds without touching
    the flow edges and connections.  On success a BleedIntra leaves the
    cycle unchanged, and every other element has registered exactly one
    module, under its own name. *)
Theorem add_element_registers_own_module (h : heap) (self : addr)
    (thermo : thermo_data) (design : bool) (c : Cycle) :
  let r := add_element h self thermo design c in
  (forall e, outcome r = Raise e -> state_of r = c)
  /\ (forall el, outcome r = Ok el ->
        exists o name,
          h !! self = Some o
          /\ object_name o = Ok name
          /\ cycle_flows (state_of r) = cycle_flows c
          /\ cycle_connects (state_of r) = cycle_connects c
          /\ if is_bleed_intra o then state_of r = c
             else exists m,
                 cycle_modules (state_of r) = cycle_modules c ++ [m]
                 /\ mod_name m = name).
Proof.
  intros r. subst r. unfold add_element.
  destruct (h !! self) as [[o|o|o|o|o|o|o|o|o|o|o|o|o|o] |] eqn:Hself;
    (split; [intros e He | intros el Hel]);
    try reflexivity; try discriminate;
    try (destruct design; cbn in He; discriminate He).
  - (* Inlet *)
    exists (OInlet o), (inlet_name o).
    destruct design; repeat split; try reflexivity; realized_module.
  - (* Duct *)
    exists (ODuct o), (duct_name o).
    repeat split; try reflexivity; realized_module.
  - (* Splitter *)
    exists (OSplitter o), (splitter_name o).
    destruct design; repeat split; try reflexivity; [| realized_module].
    eexists. split.
    + cbn. rewrite alter_last_module. cbn.
      rewrite alter_last_module. cbn.
      rewrite alter_last_module. reflexivity.
    + reflexivity.
  - (* Mixer *)
    exists (OMixer o), (mixer_name o).
    destruct design; repeat split; try reflexivity; realized_module.
  - (* BleedInter *)
    exists (OBleedInter o), (bleedinter_name o).
    repeat split; try reflexivity; realized_module.
  - (* BleedIntra *)
    exists (OBleedIntra o), (bleedintra_name o). repeat split; reflexivity.
  - (* Nozzle *)
    exists (ONozzle o), (nozzle_name o).
    repeat split; try reflexivity; realized_module.
  - (* Compressor, raising *)
    unfold Compressor.add_element in *.
    destruct (compressor_shaft o) as [s |]; [| reflexivity].
    unfold bind, lift in *.
    destruct (attr_name h (Some s)); [| reflexivity].
    destruct design; discriminate.
  - (* Compressor, realized *)
    exists (OCompressor o), (compressor_name o).
    destruct (compressor_shaft o) as [s |] eqn:Hs.
    + destruct (attr_name h (Some s)) as [n | e] eqn:Hn.
      * rewrite (compressor_add_element_bound h o s n thermo design c Hs Hn).
        repeat split; try reflexivity. eexists. split; reflexivity.
      * unfold Compressor.add_element, bind, lift in Hel.
        rewrite Hs, Hn in Hel. discriminate.
    + unfold Compressor.add_element in Hel. rewrite Hs in Hel. discriminate.
  - (* Burner *)
    exists (OBurner o), (burner_name o).
    destruct design; repeat split; try reflexivity; realized_module.
  - (* Turbine, raising *)
    unfold Turbine.add_element in *.
    destruct (turbine_shaft o) as [s |]; [| reflexivity].
    unfold bind, lift in *.
    destruct (attr_name h (Some s)); [| reflexivity].
    destruct design; discriminate.
  - (* Turbine, realized *)
    exists (OTurbine o), (turbine_name o).
    destruct (turbine_shaft o) as [s |] eqn:Hs.
    + destruct (attr_name h (Some s)) as [n | e] eqn:Hn.
      * rewrite (turbine_add_element_bound h o s n thermo design c Hs Hn).
        repeat split; try reflexivity. eexists. split; reflexivity.
      * unfold Turbine.add_element, bind, lift in Hel.
        rewrite Hs, Hn in Hel. discriminate.
    + unfold Turbine.add_element in Hel. rewrite Hs in Hel. discriminate.
  - (* Shaft, raising *)
    unfold Shaft.add_element in *.
    destruct (shaft_connections o) as [l |]; [| reflexivity].
    case_decide; [reflexivity |]. destruct design; discriminate.
  - (* Shaft, realized *)
    exists (OShaft o), (shaft_name o).
    unfold Shaft.add_element in *.
    destruct (shaft_connections o) as [l |]; [| discriminate].
    case_decide; [discriminate |].
    repeat split; try (destruct design; reflexivity).
    eexists. split; [destruct design; reflexivity | reflexivity].
Qed.

(** ** What a phase leaves alone *)

(** A preorder on states that every step respects is respected by
    sequencing and by loops, whether or not they run to their end. *)
Section Invariant.
Context {St : Type} (R : St -> St -> Prop) `{!PreOrder R}.

Lemma ret_inv {A} (a : A) (s : St) : R s (state_of (ret a s)).
Proof. reflexivity. Qed.

Lemma raise_inv {A} (e : exn) (s : St) : R s (state_of (@raise St A e s)).
Proof. reflexivity. Qed.

Lemma lift_inv {A} (r : result A) (s : St) : R s (state_of (lift r s)).
Proof. reflexivity. Qed.

Lemma bind_inv {A B} (m : M St A) (k : A -> M St B) :
  (forall s, R s (state_of (m s))) ->
  (forall a s, R s (state_of (k a s))) ->
  forall s, R s (state_of (bind m k s)).
Proof.
  intros Hm Hk s. unfold bind. specialize (Hm s).
  destruct (m s) as [s' [a | e]]; simpl in *.
  - transitivity s'; [exact Hm | apply Hk].
  - exact Hm.
Qed.

Lemma for_each_inv {A} (body : A -> M St unit) :
  (forall x s, R s (state_of (body x s))) ->
  forall l s, R s (state_of (for_each l body s)).
Proof.
  intros Hbody l. induction l as [| x l IH]; intros s; simpl.
  - reflexivity.
  - apply bind_inv; [apply Hbody | intros _; apply IH].
Qed.

Lemma for_enumerate_inv {A} (body : nat -> A -> M St unit) :
  (forall i x s, R s (state_of (body i x s))) ->
  forall l i s, R s (state_of (for_enumerate i l body s)).
Proof.
  intros Hbody l. induction l as [| x l IH]; intros i s; simpl.
  - reflexivity.
  - apply bind_inv; [apply Hbody | intros _; apply IH].
Qed.
End Invariant.

#[global] Instance wiring_extends_preorder : PreOrder wiring_extends.
Proof.
  split.
  - intros c. repeat split; reflexivity.
  - intros c1 c2 c3 (Hm & Hd & Hf & Hc) (Hm' & Hd' & Hf' & Hc').
    repeat split; try congruence; etransitivity; eassumption.
Qed.

#[global] Instance params_extend_preorder : PreOrder params_extend.
Proof.
  split.
  - intros mp. split; reflexivity.
  - intros m1 m2 m3 (Hd & Hp) (Hd' & Hp').
    split; [congruence | etransitivity; eassumption].
Qed.

Lemma pyc_connect_flow_extends (src dst : string) (w st : option bool)
    (c : Cycle) :
  wiring_extends c (state_of (pyc_connect_flow src dst w st c)).
Proof.
  repeat split; try reflexivity. cbn. now apply prefix_app_r.
Qed.

Lemma cycle_connect_extends (src dst : string) (c : Cycle) :
  wiring_extends c (state_of (cycle_connect src dst c)).
Proof.
  repeat split; try reflexivity. cbn. now apply prefix_app_r.
Qed.

Lemma connect_flow_target_extends (h : heap) (name : string) (target : ref)
    (out_flow in_flow : string) (c : Cycle) :
  wiring_extends c
    (state_of (ArchElement._connect_flow_target h name target out_flow
                 in_flow c)).
Proof.
  unfold ArchElement._connect_flow_target. destruct target as [t |].
  - apply (bind_inv wiring_extends); [apply lift_inv; apply _ |].
    intros a s. apply pyc_connect_flow_extends.
  - reflexivity.
Qed.

Ltac wiring_step :=
  first
    [ apply connect_flow_target_extends
    | apply pyc_connect_flow_extends
    | apply cycle_connect_extends
    | apply (lift_inv wiring_extends)
    | apply (raise_inv wiring_extends)
    | apply (ret_inv wiring_extends)
    | apply (bind_inv wiring_extends); intros
    | apply (for_each_inv wiring_extends); intros
    | apply (for_enumerate_inv wiring_extends); intros ].

(** X6: the wiring phase never registers, removes or alters a module
    and never touches the input defaults: [connect], on whatever object
    it is called and whether it returns or raises, leaves the modules
    and the defaults as they were and only appends to the flow edges and
    to the connections. *)
Theorem connect_only_appends_wiring (h : heap) (self : addr) (c : Cycle) :
  wiring_extends c (state_of (connect h self c)).
Proof.
  unfold connect.
  destruct (h !! self) as [[o|o|o|o|o|o|o|o|o|o|o|o|o|o] |];
    try reflexivity.
  - unfold Inlet.connect. repeat wiring_step.
  - unfold Duct.connect. repeat wiring_step.
  - unfold Splitter.connect. repeat wiring_step.
  - unfold Mixer.connect. repeat wiring_step.
  - unfold BleedInter.connect.
    destruct (bleedinter_target o); repeat wiring_step.
  - unfold BleedIntra.connect.
    destruct (bleedintra_target o); repeat wiring_step.
  - unfold Nozzle.connect.
    destruct (nozzle_target o); repeat wiring_step.
  - unfold Compressor.connect. repeat wiring_step.
  - unfold Burner.connect. repeat wiring_step.
  - unfold Turbine.connect. repeat wiring_step.
  - unfold Shaft.connect.
    destruct (shaft_connections o); repeat wiring_step.
Qed.

Lemma prefix_append (n s : string) : String.prefix n (n +:+ s) = true.
Proof.
  induction n as [| a n IH]; simpl.
  - now destruct s.
  - destruct (Ascii.ascii_dec a a) as [_ | Hne]; [exact IH | contradiction].
Qed.

Lemma prefix_dotted (n s : string) : String.prefix n (dotted n s) = true.
Proof. apply prefix_append. Qed.

Ltac links_under :=
  repeat constructor; cbn [fst snd];
  first [ apply prefix_append | apply prefix_dotted ].

Ltac declared_links :=
  cbn; rewrite <- ?app_assoc; reflexivity.

(** X7: [connect_des_od] on an element raises [NotImplementedError]
    exactly for the two base classes, which leave it unimplemented, and
    succeeds for every concrete class.  It never touches the cycle
    parameters, it only appends links, and both paths of every link it
    appends begin with the element's own name. *)
Theorem connect_des_od_links_own_paths (h : heap) (self : addr) (o : object)
    (name : string) (mp : MPCycle) :
  h !! self = Some o ->
  object_name o = Ok name ->
  let r := connect_des_od h self mp in
  outcome r = (if is_abstract o then Raise NotImplementedError else Ok tt)
  /\ mp_cycle_params (state_of r) = mp_cycle_params mp
  /\ exists links,
       mp_des_od (state_of r) = mp_des_od mp ++ links
       /\ Forall (link_under name) links.
Proof.
  intros Hself Hname r. subst r. unfold connect_des_od. rewrite Hself.
  destruct o as [o|o|o|o|o|o|o|o|o|o|o|o|o|o]; simpl in Hname;
    try discriminate; injection Hname as <-;
    (split; [reflexivity |]); (split; [reflexivity |]).
  - exists []. split; [symmetry; apply app_nil_r | constructor].
  - exists []. split; [symmetry; apply app_nil_r | constructor].
  - eexists. split; [declared_links | links_under].
  - eexists. split; [declared_links | links_under].
  - eexists. split; [declared_links | links_under].
  - eexists. split; [declared_links | links_under].
  - eexists. split; [declared_links | links_under].
  - exists []. split; [symmetry; apply app_nil_r | constructor].
  - exists []. split; [symmetry; apply app_nil_r | constructor].
  - eexists. split; [declared_links | links_under].
  - eexists. split; [declared_links | links_under].
  - eexists. split; [declared_links | links_under].
  - exists []. split; [symmetry; apply app_nil_r | constructor].
Qed.

Lemma connect_des_od_links_own_paths_witness :
  let h := [OMixer (mkMixer "mixer" None None None 0.3)] in
  outcome (connect_des_od h 0 empty_mp_cycle) = Ok tt.
Proof.
  intros h.
  exact (proj1 (connect_des_od_links_own_paths h 0
                  (OMixer (mkMixer "mixer" None None None 0.3)) "mixer"
                  empty_mp_cycle eq_refl eq_refl)).
Defined.

Lemma pyc_add_cycle_param_extends (name : string) (val : pyfloat) (mp : MPCycle) :
  params_extend mp (state_of (pyc_add_cycle_param name val mp)).
Proof. split; [reflexivity |]. cbn. now apply prefix_app_r. Qed.

Ltac params_step :=
  first
    [ apply pyc_add_cycle_param_extends
    | apply (lift_inv params_extend)
    | apply (ret_inv params_extend)
    | apply (raise_inv params_extend)
    | apply (bind_inv params_extend); intros
    | apply (for_each_inv params_extend); intros ].

(** X8: [add_cycle_params] never touches the design/off-design links
    and only appends parameters, on whatever object it is called and
    whether it returns or raises.  Unlike the other phases it is
    implemented by the base classes, as a silent no-op: on every element
    other than a BleedIntra (whose source may be missing) it
    succeeds. *)
Theorem add_cycle_params_only_appends (h : heap) (self : addr) (mp : MPCycle) :
  let r := add_cycle_params h self mp in
  params_extend mp (state_of r)
  /\ (forall o, h !! self = Some o ->
        is_element o = true -> is_bleed_intra o = false ->
        outcome r = Ok tt)
  /\ (forall o, h !! self = Some o -> is_abstract o = true ->
        r = (mp, Ok tt)).
Proof.
  intros r. subst r. unfold add_cycle_params. split; [| split].
  - destruct (h !! self) as [[o|o|o|o|o|o|o|o|o|o|o|o|o|o] |];
      try reflexivity.
    + unfold Inlet.add_cycle_params. params_step.
    + unfold BleedInter.add_cycle_params.
      destruct (bleedinter_target o); repeat params_step.
    + unfold BleedIntra.add_cycle_params.
      destruct (bleedintra_target o); repeat params_step.
    + unfold Nozzle.add_cycle_params. params_step.
    + unfold Burner.add_cycle_params. params_step.
    + unfold Shaft.add_cycle_params. params_step.
  - intros o Hself Hel Hbi. rewrite Hself.
    destruct o as [o|o|o|o|o|o|o|o|o|o|o|o|o|o]; try discriminate;
      try reflexivity.
    unfold BleedInter.add_cycle_params.
    destruct (bleedinter_target o); [| reflexivity].
    erewrite for_each_ok
      with (step := fun mp x =>
              mkMPCycle
                (mp_cycle_params mp
                   ++ [(dotted (bleedinter_name o) x +:+ ":frac_W",
                        bleedinter_source_frac_w o);
                       (dotted (str_of (bleedinter_target_bleed o)) x
                          +:+ ":frac_P", bleedinter_target_frac_p o)])
                (mp_des_od mp)).
    + reflexivity.
    + intros x s. unfold pyc_add_cycle_param, modify, bind. cbn.
      now rewrite <- app_assoc.
  - intros o Hself Hab. rewrite Hself.
    destruct o; try discriminate; reflexivity.
Qed.

(** ** Wiring the flow path *)

(** X9: a Splitter with both targets declares exactly two flow edges,
    in this order: port [Fl_O1] to the inflow of the core target and
    port [Fl_O2] to the inflow of the bypass target.  Which port feeds
    which target is fixed by the field, not by the target. *)
Theorem splitter_wires_both_branches (h : heap) (o : Splitter)
    (core bypass : addr) (core_name bypass_name : string) (c : Cycle) :
  splitter_target_core o = Some core ->
  splitter_target_bypass o = Some bypass ->
  attr_name h (Some core) = Ok core_name ->
  attr_name h (Some bypass) = Ok bypass_name ->
  Splitter.connect h o c
  = (mkCycle (cycle_modules c)
       (cycle_flows c
          ++ [mkFlowEdge (splitter_name o +:+ ".Fl_O1")
                (core_name +:+ ".Fl_I") None None;
              mkFlowEdge (splitter_name o +:+ ".Fl_O2")
                (bypass_name +:+ ".Fl_I") None None])
       (cycle_connects c) (cycle_input_defaults c), Ok tt).
Proof.
  intros Hc Hb Hcn Hbn. unfold Splitter.connect. rewrite Hc, Hb.
  erewrite bind_ok by (apply connect_flow_target_Some; exact Hcn).
  rewrite (connect_flow_target_Some h _ _ _ bypass bypass_name _ Hbn).
  cbn. now rewrite <- app_assoc.
Qed.

Lemma splitter_wires_both_branches_witness :
  let h := [ODuct (mkDuct "core_duct" None 0.3 0 false true true);
            ODuct (mkDuct "bypass_duct" None 0.3 0 false true true)] in
  let o := mkSplitter "splitter" (Some 0) (Some 1) 5 0.3 0.3 in
  Splitter.connect h o empty_cycle
  = (mkCycle []
       [mkFlowEdge "splitter.Fl_O1" "core_duct.Fl_I" None None;
        mkFlowEdge "splitter.Fl_O2" "bypass_duct.Fl_I" None None] [] [],
     Ok tt).
Proof.
  intros h o.
  apply (splitter_wires_both_branches h o 0 1 "core_duct" "bypass_duct"
           empty_cycle); reflexivity.
Defined.

(** X10: a BleedInter without a target declares one flow edge, from its
    outflow to [fc.Fl_I], and no parameter.  With a target it declares
    the edge to the target's inflow followed by one edge per bleed name,
    from its own bleed port to the port of that name on [target_bleed],
    and two parameters per bleed name: the mass fraction on its own port
    and the pressure fraction on the receiving port. *)
Theorem bleedinter_wiring_and_parameters (h : heap) (o : BleedInter) :
  (forall c mp, bleedinter_target o = None ->
     BleedInter.connect h o c
     = (mkCycle (cycle_modules c)
          (cycle_flows c
             ++ [mkFlowEdge (bleedinter_name o +:+ ".Fl_O") "fc.Fl_I"
                   (Some false) None])
          (cycle_connects c) (cycle_input_defaults c), Ok tt)
     /\ BleedInter.add_cycle_params o mp = (mp, Ok tt))
  /\ (forall c mp t target_name,
        bleedinter_target o = Some t ->
        attr_name h (Some t) = Ok target_name ->
        BleedInter.connect h o c
        = (mkCycle (cycle_modules c)
             (cycle_flows c
                ++ mkFlowEdge (bleedinter_name o +:+ ".Fl_O")
                     (target_name +:+ ".Fl_I") None None
                   :: map (bleedinter_edge o) (bleedinter_bleed_names o))
             (cycle_connects c) (cycle_input_defaults c), Ok tt)
        /\ BleedInter.add_cycle_params o mp
           = (mkMPCycle
                (mp_cycle_params mp
                   ++ flat_map (bleedinter_params o) (bleedinter_bleed_names o))
                (mp_des_od mp), Ok tt)
        /\ length (flat_map (bleedinter_params o) (bleedinter_bleed_names o))
           = 2 * length (bleedinter_bleed_names o)).
Proof.
  split.
  - intros c mp Ht.
    unfold BleedInter.connect, BleedInter.add_cycle_params.
    now rewrite Ht.
  - intros c mp t tn Ht Hn. split; [| split].
    + unfold BleedInter.connect. rewrite Ht.
      erewrite bind_ok by (apply connect_flow_target_Some; exact Hn).
      erewrite for_each_ok
        with (step := fun c x =>
                mkCycle (cycle_modules c)
                  (cycle_flows c ++ [bleedinter_edge o x])
                  (cycle_connects c) (cycle_input_defaults c))
        by reflexivity.
      rewrite foldl_flows. cbn. now rewrite <- app_assoc.
    + unfold BleedInter.add_cycle_params. rewrite Ht.
      erewrite for_each_ok
        with (step := fun mp x =>
                mkMPCycle (mp_cycle_params mp ++ bleedinter_params o x)
                  (mp_des_od mp)).
      * now rewrite foldl_params.
      * intros x s. unfold pyc_add_cycle_param, modify, bind. cbn.
        now rewrite <- app_assoc.
    + now apply length_flat_map_const.
Qed.

Lemma bleedinter_wiring_and_parameters_witness :
  let h := [ODuct (mkDuct "duct" None 0.3 0 false true true)] in
  let o := mkBleedInter "bleed" (Some 0) (Some "hpt") 0.3 0.05 1 false
             ["cool1"; "cool2"] in
  BleedInter.add_cycle_params o empty_mp_cycle
  = (mkMPCycle (flat_map (bleedinter_params o) ["cool1"; "cool2"]) [], Ok tt).
Proof.
  intros h o.
  exact (proj1 (proj2 (proj2 (bleedinter_wiring_and_parameters h o)
                         empty_cycle empty_mp_cycle 0 "duct" eq_refl eq_refl))).
Defined.

(** X11: a Turbine's [connect_des_od] declares exactly five links, in
    this order: the scale factors [s_PR], [s_Wp], [s_eff], [s_Np], each
    with the same path on both sides, and the exit area, from
    [<name>.Fl_O:stat:area] to [<name>.area].  Two of the scale factors
    differ from the compressor's ([s_Wp], [s_Np] for [s_Wc], [s_Nc]). *)
Theorem turbine_connect_des_od_links (o : Turbine) (mp : MPCycle) :
  Turbine.connect_des_od o mp
  = (mkMPCycle (mp_cycle_params mp)
       (mp_des_od mp ++ turbine_links (turbine_name o)), Ok tt)
  /\ length (turbine_links (turbine_name o)) = 5
  /\ Forall (fun l => fst l = snd l) (take 4 (turbine_links (turbine_name o)))
  /\ (forall n, turbine_links n <> compressor_links n).
Proof.
  split; [| split; [| split]].
  - unfold Turbine.connect_des_od, turbine_links. cbn.
    unfold pyc_connect_des_od, modify. cbn. now rewrite <- !app_assoc.
  - reflexivity.
  - simpl. repeat constructor.
  - intros n Heq. unfold turbine_links, compressor_links in Heq.
    injection Heq as _ Heq _. unfold dotted in Heq.
    apply (inj (String.app _)) in Heq. discriminate.
Qed.

(** ** Equality across classes *)

(** X12: comparing a TurbofanArchitecture with an element, in either
    order, goes through [TurbofanArchitecture.__eq__], which hashes both
    operands.  For an instance of the base class [ArchElement] the
    answer is [False]; for an instance of any other element class,
    whose [__hash__] the dataclass decorator has removed, the comparison
    raises [TypeError] instead of answering. *)
Theorem architecture_against_element (fuel : nat) (h : heap) (a b : addr)
    (x : TurbofanArchitecture) (o : object) :
  h !! a = Some (OTurbofanArchitecture x) ->
  h !! b = Some o ->
  is_element o = true ->
  let expected :=
    if decide (class_name o = "ArchElement") then Ok false
    else Raise (TypeError "unhashable type") in
  TurbofanArchitecture.__eq__ h a b = expected
  /\ py_eq (S fuel) h a b = expected
  /\ py_eq (S fuel) h b a = expected.
Proof.
  intros Ha Hb Hel expected. subst expected.
  assert (a <> b) as Hne.
  { intros ->. rewrite Ha in Hb. injection Hb as <-. discriminate. }
  assert (TurbofanArchitecture.__eq__ h a b
          = if decide (class_name o = "ArchElement") then Ok false
            else Raise (TypeError "unhashable type")) as Heq.
  { unfold TurbofanArchitecture.__eq__, TurbofanArchitecture.hash.
    rewrite Ha, Hb.
    destruct o; try discriminate; try reflexivity.
    cbn. f_equal. apply Z.eqb_neq. intros Hid. now apply Hne, py_id_inj. }
  split; [exact Heq |]. split.
  - cbn [py_eq]. now rewrite Ha, Hb.
  - cbn [py_eq]. rewrite Ha, Hb. destruct o; try discriminate; exact Heq.
Qed.

Lemma architecture_against_element_witness :
  let h := [OInlet (mkInlet "inlet" None 0.6 1);
            OTurbofanArchitecture (mkTurbofanArchitecture [0])] in
  py_eq 1 h 1 0 = Raise (TypeError "unhashable type").
Proof.
  intros h.
  exact (proj1 (proj2 (architecture_against_element 0 h 1 0
                         (mkTurbofanArchitecture [0])
                         (OInlet (mkInlet "inlet" None 0.6 1))
                         eq_refl eq_refl eq_refl))).
Defined.

(** X13: two elements of different classes never compare equal,
    whatever their fields hold: both generated [__eq__] methods decline
    and the comparison falls back to identity. *)
Theorem different_classes_compare_unequal (fuel : nat) (h : heap) (a b : addr)
    (oa ob : object) :
  h !! a = Some oa ->
  h !! b = Some ob ->
  is_element oa = true ->
  is_element ob = true ->
  class_name oa <> class_name ob ->
  py_eq (S fuel) h a b = Ok false.
Proof.
  intros Ha Hb Hela Helb Hcls.
  assert (a <> b) as Hne.
  { intros ->. rewrite Ha in Hb. injection Hb as <-. now apply Hcls. }
  cbn [py_eq]. rewrite Ha, Hb.
  destruct oa, ob; try discriminate; try (now destruct Hcls);
    now rewrite bool_decide_false.
Qed.

Lemma different_classes_compare_unequal_witness :
  let h := [OInlet (mkInlet "front" None 0.3 1);
            OBurner (mkBurner "front" None JET_A 0.3 1)] in
  py_eq 1 h 0 1 = Ok false.
Proof.
  intros h.
  apply (different_classes_compare_unequal 0 h 0 1
           (OInlet (mkInlet "front" None 0.3 1))
           (OBurner (mkBurner "front" None JET_A 0.3 1)));
    try reflexivity.
  discriminate.
Defined.

(** ** Equality and shaft bindings *)

#[global] Instance heaps_agree_preorder : PreOrder heaps_agree.
Proof.
  split.
  - intros h a. destruct (h !! a); [reflexivity | exact I].
  - intros h1 h2 h3 H12 H23 a. specialize (H12 a). specialize (H23 a).
    destruct (h1 !! a), (h2 !! a), (h3 !! a); try contradiction; try exact I.
    unfold same_but_shaft in *. congruence.
Qed.

Lemma with_shaft_None_with_shaft (s : ref) (o : object) :
  same_but_shaft o (BaseTurboMachinery.with_shaft s o).
Proof. unfold same_but_shaft. now destruct o. Qed.

Lemma set_shaft_agrees (x : addr) (s : ref) (h : heap) :
  heaps_agree h (state_of (BaseTurboMachinery.set_shaft x s h)).
Proof.
  intros a. unfold BaseTurboMachinery.set_shaft, modify, state_of. simpl.
  unfold heap, addr in *.
  destruct (decide (x = a)) as [<- | Hne].
  - rewrite list_lookup_alter_eq.
    destruct (h !! x); [apply with_shaft_None_with_shaft | exact I].
  - rewrite list_lookup_alter_ne by assumption.
    destruct (h !! a); [reflexivity | exact I].
Qed.

Lemma bind_connection_agrees (self conn : addr) (h : heap) :
  heaps_agree h (state_of (Shaft.bind_connection self conn h)).
Proof.
  unfold Shaft.bind_connection.
  apply (bind_inv heaps_agree).
  - intros s. unfold BaseTurboMachinery.shaft.
    destruct (s !! conn ≫= BaseTurboMachinery.shaft_attr); reflexivity.
  - intros [t |] s; [reflexivity | apply set_shaft_agrees].
Qed.

Lemma post_init_agrees (self : addr) (h : heap) :
  heaps_agree h (state_of (Shaft.__post_init__ self h)).
Proof.
  unfold Shaft.__post_init__. apply (bind_inv heaps_agree).
  - reflexivity.
  - intros h0 s.
    destruct (h0 !! self) as [[] |]; try reflexivity.
    destruct (shaft_connections o); [| reflexivity].
    apply (for_each_inv heaps_agree). intros x s'.
    apply bind_connection_agrees.
Qed.

Lemma items_eq_ext {A} (f g : A -> A -> result bool) (l1 l2 : list A) :
  (forall x y, f x y = g x y) -> items_eq f l1 l2 = items_eq g l1 l2.
Proof.
  intros Hfg. revert l2. induction l1 as [| x l1 IH]; intros [| y l2]; simpl;
    try reflexivity.
  now rewrite Hfg, IH.
Qed.

Lemma list_eq_ext {A} (f g : A -> A -> result bool) (l1 l2 : list A) :
  (forall x y, f x y = g x y) -> list_eq f l1 l2 = list_eq g l1 l2.
Proof.
  intros Hfg. unfold list_eq. case_decide; [| reflexivity].
  now apply items_eq_ext.
Qed.

(** The class of an object, and so its hash, does not depend on shaft
    bindings. *)
Lemma hash_agree (h h' : heap) (a : addr) :
  heaps_agree h h' ->
  TurbofanArchitecture.hash h a = TurbofanArchitecture.hash h' a.
Proof.
  intros Hag. specialize (Hag a). unfold TurbofanArchitecture.hash.
  destruct (h !! a) as [o |], (h' !! a) as [o' |]; try contradiction;
    [| reflexivity].
  unfold same_but_shaft in Hag.
  destruct o, o'; simpl in Hag; try discriminate; reflexivity.
Qed.

Lemma architecture_eq_agree (h h' : heap) (a b : addr) :
  heaps_agree h h' ->
  TurbofanArchitecture.__eq__ h a b = TurbofanArchitecture.__eq__ h' a b.
Proof.
  intros Hag. unfold TurbofanArchitecture.__eq__.
  now rewrite (hash_agree h h' a Hag), (hash_agree h h' b Hag).
Qed.

Ltac expose_fields :=
  repeat match goal with
         | H : same_but_shaft _ _ |- _ =>
             unfold same_but_shaft in H; cbn in H;
             first [ discriminate H | injection H as H; repeat intro; subst ]
         end.

(** Stores that agree up to shaft bindings give every comparison the
    same result. *)
Lemma py_eq_agree (fuel : nat) :
  forall (h h' : heap), heaps_agree h h' ->
  forall a b, py_eq fuel h a b = py_eq fuel h' a b.
Proof.
  induction fuel as [| fuel IH]; intros h h' Hag a b; [reflexivity |].
  pose proof (architecture_eq_agree h h' a b Hag) as Eab.
  pose proof (architecture_eq_agree h h' b a Hag) as Eba.
  pose proof (Hag a) as Ha. pose proof (Hag b) as Hb.
  cbn [py_eq].
  destruct (h !! a) as [oa |], (h' !! a) as [oa' |]; try contradiction;
    try reflexivity;
    destruct (h !! b) as [ob |], (h' !! b) as [ob' |]; try contradiction;
    try reflexivity.
  destruct oa as [x|x|x|x|x|x|x|x|x|x|x|x|x|x],
           oa' as [x'|x'|x'|x'|x'|x'|x'|x'|x'|x'|x'|x'|x'|x'];
    try (unfold same_but_shaft in Ha; discriminate Ha);
    destruct ob as [y|y|y|y|y|y|y|y|y|y|y|y|y|y],
             ob' as [y'|y'|y'|y'|y'|y'|y'|y'|y'|y'|y'|y'|y'|y'];
    try (unfold same_but_shaft in Hb; discriminate Hb);
    try reflexivity; try exact Eab; try exact Eba;
    destruct x, x', y, y'; unfold same_but_shaft in Ha, Hb;
    cbn in Ha, Hb; injection Ha as Ha; injection Hb as Hb;
    repeat intro; subst; cbn;
    repeat match goal with
           | r : ref |- _ => destruct r
           | r : option (list addr) |- _ => destruct r
           end;
    cbn; rewrite ?(IH h h' Hag);
    try reflexivity.
  all: erewrite list_eq_ext; [reflexivity |].
  all: intros p q; cbn; now rewrite (IH h h' Hag).
Qed.

(** X14: whom an element is bound to plays no part in equality.
    [Shaft.__post_init__], whether it binds all its connections or
    raises half way, and the [shaft] setter leave the result of every
    comparison between two objects of the store as it was. *)
Theorem binding_preserves_equality (fuel : nat) (h : heap) (a b : addr) :
  (forall self,
     py_eq fuel (state_of (Shaft.__post_init__ self h)) a b = py_eq fuel h a b)
  /\ (forall x s,
        py_eq fuel (state_of (BaseTurboMachinery.set_shaft x s h)) a b
        = py_eq fuel h a b).
Proof.
  split.
  - intros self. symmetry. apply py_eq_agree, post_init_agrees.
  - intros x s. symmetry. apply py_eq_agree, set_shaft_agrees.
Qed.

(** ** Exporting values to the problem *)

Lemma prefix_app_same (a b c : string) :
  String.prefix (a +:+ b) (a +:+ c) = String.prefix b c.
Proof.
  induction a as [| x a IH]; simpl.
  - reflexivity.
  - destruct (Ascii.ascii_dec x x) as [_ | Hne]; [exact IH | contradiction].
Qed.

Lemma prefix_design_path (des name field : string) :
  String.prefix (des +:+ "." +:+ name) (des +:+ "." +:+ name +:+ field) = true.
Proof. rewrite !prefix_app_same. apply prefix_append. Qed.

(** X15: [set_problem_values] succeeds on every element and only
    appends values.  A Compressor writes its pressure ratio to
    [<des_con_name>.<name>.PR] and then its efficiency to
    [<des_con_name>.<name>.eff]; a Turbine writes its efficiency to
    [<des_con_name>.<name>.eff]; no other element writes anything.
    Every path written lies under [<des_con_name>.<element name>], and
    the evaluation-point names are never used: the result is the same
    for every [eval_con_names]. *)
Theorem set_problem_values_writes_design_point (h : heap) (self : addr)
    (o : object) (name des_con_name : string) (eval_con_names : list string)
    (p : Problem) :
  h !! self = Some o ->
  object_name o = Ok name ->
  let r := set_problem_values h self des_con_name eval_con_names p in
  r = (mkProblem (problem_vals p ++ exported_values o des_con_name), Ok tt)
  /\ Forall (fun v => String.prefix (des_con_name +:+ "." +:+ name)
                        (fst v) = true)
       (exported_values o des_con_name)
  /\ (forall c, o = OCompressor c ->
        exported_values o des_con_name
        = [(des_con_name +:+ "." +:+ name +:+ ".PR", compressor_pr c);
           (des_con_name +:+ "." +:+ name +:+ ".eff", compressor_eff c)])
  /\ (forall t, o = OTurbine t ->
        exported_values o des_con_name
        = [(des_con_name +:+ "." +:+ name +:+ ".eff", turbine_eff t)])
  /\ (class_name o <> "Compressor" -> class_name o <> "Turbine" ->
      exported_values o des_con_name = [])
  /\ (forall others, set_problem_values h self des_con_name others p = r).
Proof.
  intros Hself Hname r. subst r. unfold set_problem_values. rewrite Hself.
  split; [| split; [| split; [| split; [| split]]]].
  - destruct o; try discriminate Hname;
      first [ destruct p; cbn; now rewrite app_nil_r
            | unfold Compressor.set_problem_values, set_val, modify, bind;
              cbn; now rewrite <- app_assoc
            | reflexivity ].
  - destruct o as [o|o|o|o|o|o|o|o|o|o|o|o|o|o]; simpl in Hname;
      try discriminate; injection Hname as <-;
      repeat constructor; cbn [fst]; apply prefix_design_path.
  - intros c ->. simpl in Hname. now injection Hname as <-.
  - intros t ->. simpl in Hname. now injection Hname as <-.
  - intros Hc Ht. destruct o; try reflexivity; contradiction.
  - intros others. now destruct o.
Qed.

Lemma set_problem_values_writes_design_point_witness :
  let h := [OCompressor (mkCompressor "hpc" None None HPC 0.01 5 1)] in
  set_problem_values h 0 "design" ["OD1"; "OD2"] (mkProblem [])
  = (mkProblem [("design.hpc.PR", Num 5); ("design.hpc.eff", Num 1)], Ok tt).
Proof.
  intros h.
  exact (proj1 (set_problem_values_writes_design_point h 0
                  (OCompressor (mkCompressor "hpc" None None HPC 0.01 5 1))
                  "hpc" "design" ["OD1"; "OD2"] (mkProblem [])
                  eq_refl eq_refl)).
Defined.

(** ** Constructing a shaft over something else *)

Lemma bind_connection_no_shaft (self conn : addr) (h : heap) :
  shaft_at h conn = None ->
  Shaft.bind_connection self conn h = (h, Raise (AttributeError "shaft")).
Proof.
  intros H. unfold Shaft.bind_connection, bind, BaseTurboMachinery.shaft.
  fold (shaft_at h conn). now rewrite H.
Qed.

(** X17: a connection that is not a turbomachinery element (a Burner,
    say) has no [shaft] attribute: the constructor of the Shaft fails on
    it with [AttributeError], not with the duplicate-binding error, and
    the distinct, unbound connections listed before it stay bound to
    the shaft that was never completed. *)
Theorem shaft_over_other_element (h : heap) (name : string)
    (pre post : list addr) (c : addr) (o : object)
    (rpm_design power_loss : pyfloat) :
  NoDup pre ->
  (forall x, x ∈ pre -> shaft_at h x = Some None) ->
  h !! c = Some o ->
  BaseTurboMachinery.shaft_attr o = None ->
  let r := Shaft.new name (Some (pre ++ c :: post)) rpm_design power_loss h in
  outcome r = Raise (AttributeError "shaft")
  /\ (forall x, x ∈ pre -> shaft_at (state_of r) x = Some (Some (length h))).
Proof.
  intros Hnd Hall Hc Ho r. subst r. rewrite shaft_new_unfold.
  set (h1 := h ++ [OShaft (mkShaft name (Some (pre ++ c :: post)) rpm_design
                             power_loss)]).
  destruct (bind_connections_unbound (length h) pre h1 Hnd)
    as (h' & Hrun & Hbound & Hrest).
  { intros x Hx. apply shaft_at_alloc. now apply Hall. }
  assert (shaft_at h' c = None) as Hcn.
  { unfold shaft_at. rewrite Hrest.
    - unfold h1, heap, addr in *.
      rewrite (lookup_app_l_Some _ _ _ _ Hc). simpl. exact Ho.
    - intros Hin. pose proof (Hall c Hin) as Hs. unfold shaft_at in Hs.
      unfold heap, addr in *. rewrite Hc in Hs. simpl in Hs. congruence. }
  assert (for_each (pre ++ c :: post) (Shaft.bind_connection (length h)) h1
          = (h', Raise (AttributeError "shaft"))) as Hloop.
  { rewrite for_each_app. erewrite bind_ok by exact Hrun. simpl.
    erewrite bind_fail by (apply bind_connection_no_shaft; exact Hcn).
    reflexivity. }
  erewrite bind_fail by exact Hloop.
  split; [reflexivity | exact Hbound].
Qed.

Lemma shaft_over_other_element_witness :
  let h := [OCompressor (mkCompressor "hpc" None (Some 1) HPC 0.01 5 1);
            OBurner (mkBurner "burner" None JET_A 0.01 0)] in
  let r := Shaft.new "shaft" (Some ([0] ++ 1 :: [])) 10000 0 h in
  outcome r = Raise (AttributeError "shaft")
  /\ (forall x, x ∈ [0] -> shaft_at (state_of r) x = Some (Some 2)).
Proof.
  intros h.
  apply (shaft_over_other_element h "shaft" [0] [] 1
           (OBurner (mkBurner "burner" None JET_A 0.01 0)) 10000 0).
  - apply NoDup_singleton.
  - intros x Hx. apply elem_of_cons in Hx as [-> | Hx]; [reflexivity |].
    now apply elem_of_nil in Hx.
  - reflexivity.
  - reflexivity.
Defined.

(** ** Why realization fails *)

(** X18: the only ways [add_element] can fail on an object of the
    store.  If it raises, then either the object is of one of the two
    base classes and the error is [NotImplementedError]; or it is a
    Compressor or Turbine whose shaft is [None] and the error is the
    unbound-turbomachinery one; or it is a Compressor or Turbine bound
    to an object without a name; or it is a Shaft whose connections are
    [None] or fewer than two and the error is the topology one; or it
    is an architecture, which has no such method.  The flow elements
    and the Burner never fail. *)
Theorem add_element_failures (h : heap) (self : addr) (o : object)
    (thermo : thermo_data) (design : bool) (c : Cycle) (e : exn) :
  h !! self = Some o ->
  outcome (add_element h self thermo design c) = Raise e ->
  (is_abstract o = true /\ e = NotImplementedError)
  \/ (is_abstract o = false
      /\ BaseTurboMachinery.shaft_attr o = Some None
      /\ e = UnboundTurbomachinery)
  \/ (exists s msg,
        is_abstract o = false
        /\ BaseTurboMachinery.shaft_attr o = Some (Some s)
        /\ attr_name h (Some s) = Raise (AttributeError msg)
        /\ e = AttributeError msg)
  \/ (exists s,
        o = OShaft s
        /\ (shaft_connections s = None
            \/ exists l, shaft_connections s = Some l /\ length l < 2)
        /\ e = InvalidShaftTopology)
  \/ (is_element o = false /\ e = AttributeError "add_element").
Proof.
  intros Hself He. unfold add_element in He. rewrite Hself in He.
  destruct o as [o|o|o|o|o|o|o|o|o|o|o|o|o|o];
    try (destruct design; cbn in He; discriminate He).
  - left. split; [reflexivity |]. now injection He as <-.
  - left. split; [reflexivity |]. now injection He as <-.
  - unfold Compressor.add_element in He. simpl.
    destruct (compressor_shaft o) as [s |].
    + right; right; left. unfold bind, lift in He.
      destruct (attr_name h (Some s)) as [n | e'] eqn:Hn.
      * destruct design; discriminate He.
      * destruct (attr_name_raises _ _ _ Hn) as [msg ->].
        exists s, msg. repeat split; [exact Hn | now injection He as <-].
    + right; left. repeat split. now injection He as <-.
  - unfold Turbine.add_element in He. simpl.
    destruct (turbine_shaft o) as [s |].
    + right; right; left. unfold bind, lift in He.
      destruct (attr_name h (Some s)) as [n | e'] eqn:Hn.
      * destruct design; discriminate He.
      * destruct (attr_name_raises _ _ _ Hn) as [msg ->].
        exists s, msg. repeat split; [exact Hn | now injection He as <-].
    + right; left. repeat split. now injection He as <-.
  - do 3 right; left. exists o. split; [reflexivity |].
    unfold Shaft.add_element in He.
    destruct (shaft_connections o) as [l |].
    + case_decide.
      * split; [right; exists l; now split | now injection He as <-].
      * destruct design; discriminate He.
    + split; [now left | now injection He as <-].
  - do 4 right. split; [reflexivity |]. now injection He as <-.
Qed.

Lemma add_element_failures_witness :
  let h := [OCompressor (mkCompressor "hpc" None None HPC 0.01 5 1)] in
  let o := OCompressor (mkCompressor "hpc" None None HPC 0.01 5 1) in
  let e := UnboundTurbomachinery in
  (is_abstract o = true /\ e = NotImplementedError)
  \/ (is_abstract o = false
      /\ BaseTurboMachinery.shaft_attr o = Some None
      /\ e = UnboundTurbomachinery)
  \/ (exists s msg,
        is_abstract o = false
        /\ BaseTurboMachinery.shaft_attr o = Some (Some s)
        /\ attr_name h (Some s) = Raise (AttributeError msg)
        /\ e = AttributeError msg)
  \/ (exists s,
        o = OShaft s
        /\ (shaft_connections s = None
            \/ exists l, shaft_connections s = Some l /\ length l < 2)
        /\ e = InvalidShaftTopology)
  \/ (is_element o = false /\ e = AttributeError "add_element").
Proof.
  intros h o e.
  exact (add_element_failures h 0 o 0 true empty_cycle e eq_refl eq_refl).
Defined.
